(** * The Web PubSub custom-certificate resource

    A shallow embedding of
    [internal/services/signalr/web_pubsub_custom_certificate_resource.go]:
    the [Create], [Read] and [Delete] resource functions of
    [CustomCertWebPubsubResource], over an explicit model of the host's
    resource data, of the remote Web PubSub API and of the identifier
    helpers the resource calls. *)

From Stdlib Require Import ZArith String Ascii.
From stdpp Require Import gmap strings list.

Open Scope string_scope.

(** ** Go's [strings] helpers used by the identifier code *)

Module GoStrings.

(** [strings.Split s sep] for a one-byte separator; every call site in the
    identifier code splits on "/". *)
Fixpoint Split (s : string) (sep : ascii) : list string :=
  match s with
  | EmptyString => [EmptyString]
  | String c rest =>
      if Ascii.eqb c sep then EmptyString :: Split rest sep
      else match Split rest sep with
           | seg :: segs => String c seg :: segs
           | [] => [String c EmptyString]
           end
  end.

(** [strings.Join elems sep]. *)
Fixpoint Join (elems : list string) (sep : string) : string :=
  match elems with
  | [] => ""
  | [e] => e
  | e :: rest => e ++ sep ++ Join rest sep
  end.

(** [strings.ContainsRune s c] for a one-byte rune. *)
Fixpoint ContainsByte (s : string) (c : ascii) : bool :=
  match s with
  | EmptyString => false
  | String d rest => Ascii.eqb d c || ContainsByte rest c
  end.

(** [strings.TrimSuffix s "/"]: one trailing slash is dropped. *)
Fixpoint TrimSuffixSlash (s : string) : string :=
  match s with
  | EmptyString => EmptyString
  | String c EmptyString => if Ascii.eqb c "/" then EmptyString else s
  | String c rest => String c (TrimSuffixSlash rest)
  end.

(** [strings.TrimPrefix s "/"]: one leading slash is dropped. *)
Definition TrimPrefixSlash (s : string) : string :=
  match s with
  | String "/" rest => rest
  | _ => s
  end.

(** [strings.TrimSpace s] is not empty: some byte of [s] is not white
    space. *)
Fixpoint HasNonSpace (s : string) : bool :=
  match s with
  | EmptyString => false
  | String c rest => negb (Ascii.is_space c) || HasNonSpace rest
  end.

End GoStrings.

(** ** Errors

    A Go [error] built by [fmt.Errorf] is kept as its format string and the
    operands it was given; an error handed back by a collaborator is opaque. *)

Record WebPubSubId := {
  wps_SubscriptionId : string;
  wps_ResourceGroupName : string;
  wps_WebPubSubName : string;
}.

Record CustomCertificateId := {
  SubscriptionId : string;
  ResourceGroupName : string;
  WebPubSubName : string;
  CustomCertificateName : string;
}.

Record KeyVaultId := {
  kv_SubscriptionId : string;
  kv_ResourceGroupName : string;
  kv_VaultName : string;
}.

Inductive error : Type :=
| errorString (msg : string)
| Errorf (format : string) (operands : list operand)
with operand : Type :=
| OpString (s : string)
| OpError (e : option error)
| OpCustomCertificateId (id : CustomCertificateId)
| OpKeyVaultIdPtr (id : option KeyVaultId).

(** A Go [(value, error)] pair of a pure helper. *)
Inductive result (A : Type) : Type :=
| Ok (a : A)
| Err (e : error).
Arguments Ok {A} a.
Arguments Err {A} e.

(** ** Resource identifiers *)

Module resourceids.

Import GoStrings.

Inductive Segment : Type :=
| StaticSegment (fixedValue : string)
| UserSpecifiedSegment (name : string).

(** A user-specified segment is one non-empty path component. *)
Definition validSegment (s : string) : bool :=
  negb (String.eqb s "") && negb (ContainsByte s "/").

Fixpoint parseSegments (segments : list Segment) (components : list string)
  : option (list string) :=
  match segments, components with
  | [], [] => Some []
  | [], [EmptyString] => Some []
  | StaticSegment v :: segments', c :: components' =>
      if String.eqb c v then parseSegments segments' components' else None
  | UserSpecifiedSegment _ :: segments', c :: components' =>
      if String.eqb c "" then None
      else match parseSegments segments' components' with
           | Some vs => Some (c :: vs)
           | None => None
           end
  | _, _ => None
  end.

(** The number of values an identifier of these segments carries. *)
Fixpoint userSpecifiedCount (segments : list Segment) : nat :=
  match segments with
  | [] => 0
  | StaticSegment _ :: segments' => userSpecifiedCount segments'
  | UserSpecifiedSegment _ :: segments' => S (userSpecifiedCount segments')
  end.

Definition staticSlashFree (segment : Segment) : bool :=
  match segment with
  | StaticSegment v => negb (ContainsByte v "/")
  | UserSpecifiedSegment _ => true
  end.

Fixpoint formatSegments (segments : list Segment) (values : list string)
  : list string :=
  match segments, values with
  | StaticSegment v :: segments', _ => v :: formatSegments segments' values
  | UserSpecifiedSegment _ :: segments', x :: values' =>
      x :: formatSegments segments' values'
  | _, _ => []
  end.

(** Modelled from the spec: the identifier parser of the shared
    resource-identifier library, which is not part of this file.  An
    identifier is "/" followed by its segments joined with "/"; parsing
    matches the fixed segments literally and takes each user-specified
    segment as one non-empty component.  As the library does, it also takes
    an input without the leading "/" and one with a "/" after the last
    segment. *)
Definition Parse (segments : list Segment) (input : string)
  : option (list string) :=
  parseSegments segments (Split (TrimPrefixSlash input) "/").

(** Modelled from the spec: the identifier formatter of the same library. *)
Definition Format (segments : list Segment) (values : list string) : string :=
  "/" ++ Join (formatSegments segments values) "/".

End resourceids.

Module webpubsub.

Import resourceids.

Definition WebPubSubSegments : list Segment :=
  [ StaticSegment "subscriptions"; UserSpecifiedSegment "subscriptionId";
    StaticSegment "resourceGroups"; UserSpecifiedSegment "resourceGroupName";
    StaticSegment "providers"; StaticSegment "Microsoft.SignalRService";
    StaticSegment "webPubSub"; UserSpecifiedSegment "webPubSubName" ].

Definition CustomCertificateSegments : list Segment :=
  WebPubSubSegments ++
  [ StaticSegment "customCertificates";
    UserSpecifiedSegment "customCertificateName" ].

(** Modelled from the spec: the constructors of the API library's
    identifiers, which only store their components. *)
Definition NewWebPubSubID (subscriptionId resourceGroupName webPubSubName : string)
  : WebPubSubId :=
  {| wps_SubscriptionId := subscriptionId;
     wps_ResourceGroupName := resourceGroupName;
     wps_WebPubSubName := webPubSubName |}.

Definition NewCustomCertificateID
    (subscriptionId resourceGroupName webPubSubName customCertificateName : string)
  : CustomCertificateId :=
  {| SubscriptionId := subscriptionId;
     ResourceGroupName := resourceGroupName;
     WebPubSubName := webPubSubName;
     CustomCertificateName := customCertificateName |}.

(** Modelled from the spec: the formatter of the parent-service identifier,
    a subscription / resource-group / service-name triple. *)
Definition WebPubSubId_ID (id : WebPubSubId) : string :=
  Format WebPubSubSegments
    [wps_SubscriptionId id; wps_ResourceGroupName id; wps_WebPubSubName id].

(** Modelled from the spec: the parser of the parent-service identifier. *)
Definition ParseWebPubSubID (input : string) : result WebPubSubId :=
  match Parse WebPubSubSegments input with
  | Some [sub; rg; svc] => Ok (NewWebPubSubID sub rg svc)
  | _ => Err (Errorf "parsing %q" [OpString input])
  end.

(** Modelled from the spec: the formatter of the resource identifier, of
    grammar [<parent-service-scope>/customCertificates/<name>]. *)
Definition CustomCertificateId_ID (id : CustomCertificateId) : string :=
  Format CustomCertificateSegments
    [SubscriptionId id; ResourceGroupName id; WebPubSubName id;
     CustomCertificateName id].

(** Modelled from the spec: the parser of the resource identifier. *)
Definition ParseCustomCertificateID (input : string)
  : result CustomCertificateId :=
  match Parse CustomCertificateSegments input with
  | Some [sub; rg; svc; name] => Ok (NewCustomCertificateID sub rg svc name)
  | _ => Err (Errorf "parsing %q" [OpString input])
  end.

End webpubsub.

Module validation.

(** Modelled from the spec: [validation.StringIsNotEmpty], the check of the
    [name] argument: the string is not empty, white space not counting. *)
Definition StringIsNotEmpty (v : string) : bool := GoStrings.HasNonSpace v.

End validation.

Module commonids.

Import resourceids.

Definition KeyVaultSegments : list Segment :=
  [ StaticSegment "subscriptions"; UserSpecifiedSegment "subscriptionId";
    StaticSegment "resourceGroups"; UserSpecifiedSegment "resourceGroupName";
    StaticSegment "providers"; StaticSegment "Microsoft.KeyVault";
    StaticSegment "vaults"; UserSpecifiedSegment "vaultName" ].

(** Modelled from the spec: the structured vault identifier the resolver's
    answer is parsed into. *)
Definition ParseKeyVaultID (input : string) : result KeyVaultId :=
  match Parse KeyVaultSegments input with
  | Some [sub; rg; vault] =>
      Ok {| kv_SubscriptionId := sub; kv_ResourceGroupName := rg;
            kv_VaultName := vault |}
  | _ => Err (Errorf "parsing %q" [OpString input])
  end.

End commonids.

(** ** Key Vault nested items (secret references) *)

Module keyVaultParse.

Import GoStrings.

Record NestedItemId := {
  KeyVaultBaseUrl : string;
  NestedItemType : string;
  Name : string;
  Version : string;
}.

(** The scheme of a URL's first component, "https:" giving "https". *)
Fixpoint schemeOf (s : string) : option string :=
  match s with
  | EmptyString => None
  | String c EmptyString => if Ascii.eqb c ":" then Some EmptyString else None
  | String c rest =>
      match schemeOf rest with
      | Some r => Some (String c r)
      | None => None
      end
  end.

Definition nonEmpty (s : string) : bool := negb (String.eqb s "").

Definition parseError (input : string) : error :=
  Errorf "parsing %q as a Key Vault nested item" [OpString input].

(** Modelled from the spec: the secret-reference parser of the Key Vault
    package ([keyvault/parse], not part of this file).  A reference is
    [<scheme>://<host>/<kind>/<name>] optionally followed by [/<version>];
    it is parsed into the vault base address [<scheme>://<host>/], the
    kind, the secret name and the version, empty when there is none. *)
Definition ParseOptionallyVersionedNestedItemID (input : string)
  : result NestedItemId :=
  let build scheme host kind name version :=
    match schemeOf scheme with
    | Some sch =>
        if nonEmpty sch && nonEmpty host && nonEmpty kind && nonEmpty name
        then Ok {| KeyVaultBaseUrl := sch ++ "://" ++ host ++ "/";
                   NestedItemType := kind;
                   Name := name;
                   Version := version |}
        else Err (parseError input)
    | None => Err (parseError input)
    end in
  match Split input "/" with
  | [scheme; EmptyString; host; kind; name] => build scheme host kind name ""
  | [scheme; EmptyString; host; kind; name; version] =>
      build scheme host kind name version
  | _ => Err (parseError input)
  end.

(** Modelled from the spec: the constructor of a secret reference from
    (vault address, item kind, secret name, version-or-empty); the only
    address it refuses is the empty one. *)
Definition NewNestedItemID (keyVaultBaseUrl nestedItemType name version : string)
  : result NestedItemId :=
  if String.eqb keyVaultBaseUrl ""
  then Err (Errorf "parsing %q" [OpString keyVaultBaseUrl])
  else Ok {| KeyVaultBaseUrl := keyVaultBaseUrl;
             NestedItemType := nestedItemType;
             Name := name;
             Version := version |}.

(** Modelled from the spec: re-forming the reference string; the version
    segment is written only when the version is not empty. *)
Definition ID (n : NestedItemId) : string :=
  let segments :=
    [TrimSuffixSlash (KeyVaultBaseUrl n); NestedItemType n; Name n] in
  let segments :=
    if String.eqb (Version n) "" then segments else (segments ++ [Version n])%list in
  Join segments "/".

End keyVaultParse.

Module utils.

(** [utils.String]: a pointer to the string. *)
Definition String (input : string) : option string := Some input.

(** Modelled from the spec: [utils.NormalizeNilableString], the empty
    string for an absent value. *)
Definition NormalizeNilableString (input : option string) : string :=
  match input with
  | None => ""
  | Some v => v
  end.

End utils.

(** ** The remote API's objects and responses *)

Record CustomCertificateProperties := {
  KeyVaultBaseUri : string;
  KeyVaultSecretName : string;
  KeyVaultSecretVersion : option string;
}.

Record CustomCertificate := {
  Properties : CustomCertificateProperties;
}.

Module http.

Record Response := { StatusCode : Z }.

Definition StatusOK : Z := 200.
Definition StatusNotFound : Z := 404.

End http.

Record CustomCertificatesGetOperationResponse := {
  HttpResponse : option http.Response;
  Model : option CustomCertificate;
}.

Module response.

(** Modelled from the spec: [response.WasNotFound] of the helper library, a
    "not-found" response: the response is present and its status is 404. *)
Definition WasNotFound (resp : option http.Response) : bool :=
  match resp with
  | Some r => Z.eqb (http.StatusCode r) http.StatusNotFound
  | None => false
  end.

End response.

(** A Go [error] interface value: [None] is [nil]. *)
Definition notNil {A} (v : option A) : bool :=
  match v with Some _ => true | None => false end.

(** ** The host's resource data *)

Inductive tfvalue : Type :=
| TfString (s : string)
| TfInt (n : Z)
| TfBool (b : bool).

Record ResourceData := {
  Id : string;
  attrs : gmap string tfvalue;
}.

Record CustomCertWebPubsubModel := {
  Name : string;
  WebPubsubId : string;
  CustomCertId : string;
  CertificateVersion : string;
}.

Module time.

(** [time.Duration] counts nanoseconds in an int64. *)
Definition Nanosecond : Z := 1.
Definition Microsecond : Z := 1000 * Nanosecond.
Definition Millisecond : Z := 1000 * Microsecond.
Definition Second : Z := 1000 * Millisecond.
Definition Minute : Z := 60 * Second.
Definition maxDuration : Z := 2 ^ 63 - 1.

End time.

Module tf.

(** Modelled from the spec: the host's "already exists / import required"
    error for a resource type and an identifier. *)
Definition ImportAsExistsError (resourceName id : string) : error :=
  Errorf
    "A resource with the ID %q already exists - to be managed via Terraform this resource needs to be imported into the State. Please see the resource documentation for %q for more information."
    [OpString id; OpString resourceName].

End tf.

(** ** The remote collaborators

    The Web PubSub client and the vault resolver are external: each call is
    a function of the remote world [W], giving the Go results and the world
    after the call. *)

Inductive RemoteCall : Type :=
| CallCustomCertificatesGet (id : CustomCertificateId)
| CallCustomCertificatesCreateOrUpdateThenPoll
    (id : CustomCertificateId) (input : CustomCertificate)
| CallCustomCertificatesDelete (id : CustomCertificateId)
| CallKeyVaultIDFromBaseUrl (keyVaultBaseUrl : string).

Record Clients (W : Type) := {
  WebPubSub_CustomCertificatesGet :
    CustomCertificateId → W →
    (CustomCertificatesGetOperationResponse * option error) * W;
  WebPubSub_CustomCertificatesCreateOrUpdateThenPoll :
    CustomCertificateId → CustomCertificate → W → option error * W;
  WebPubSub_CustomCertificatesDelete :
    CustomCertificateId → W → (option http.Response * option error) * W;
  KeyVault_KeyVaultIDFromBaseUrl :
    string → W → (option string * option error) * W;
}.
Arguments WebPubSub_CustomCertificatesGet {W} _ _ _.
Arguments WebPubSub_CustomCertificatesCreateOrUpdateThenPoll {W} _ _ _ _.
Arguments WebPubSub_CustomCertificatesDelete {W} _ _ _.
Arguments KeyVault_KeyVaultIDFromBaseUrl {W} _ _ _.

(** What one resource function works on: the host's resource data, the
    remote world, and the remote calls made so far. *)
Record State (W : Type) := {
  resourceData : ResourceData;
  remote : W;
  calls : list RemoteCall;
}.
Arguments resourceData {W} _.
Arguments remote {W} _.
Arguments calls {W} _.

(** How a resource function ends: [Return] carries a value (for a function
    of Go type [error], [Return ()] is the nil error), [Fail] a non-nil
    error, [Panic] a run-time panic. *)
Inductive Outcome (A : Type) : Type :=
| Return (a : A)
| Fail (e : error)
| Panic.
Arguments Return {A} a.
Arguments Fail {A} e.
Arguments Panic {A}.

Definition M (W A : Type) : Type := State W → Outcome A * State W.

Global Instance M_ret {W} : MRet (M W) := λ A a st, (Return a, st).

Global Instance M_bind {W} : MBind (M W) := λ A B f m st,
  match m st with
  | (Return a, st') => f a st'
  | (Fail e, st') => (Fail e, st')
  | (Panic, st') => (Panic, st')
  end.

Definition throw {W A} (e : error) : M W A := λ st, (Fail e, st).
Definition panic {W A} : M W A := λ st, (Panic, st).

Record ResourceFunc (W : Type) := {
  Timeout : Z;
  Func : M W ();
}.
Arguments Timeout {W} _.
Arguments Func {W} _.

(** ** The host's metadata operations *)

Module sdk.

Definition decodeString (d : ResourceData) (tag : string) : result string :=
  match attrs d !! tag with
  | None => Ok ""
  | Some (TfString s) => Ok s
  | Some _ => Err (Errorf "decoding %q: expected a string" [OpString tag])
  end.

(** Modelled from the spec: [metadata.Decode], which reads the typed
    record from the resource data by its [tfschema] tags and fails when the
    shape is invalid (a field that does not hold a string; an unset field
    reads as the empty string). *)
Definition Decode (d : ResourceData) : result CustomCertWebPubsubModel :=
  match decodeString d "name" with
  | Err e => Err e
  | Ok name =>
  match decodeString d "web_pubsub_id" with
  | Err e => Err e
  | Ok webPubsubId =>
  match decodeString d "custom_certificate_id" with
  | Err e => Err e
  | Ok customCertId =>
  match decodeString d "certificate_version" with
  | Err e => Err e
  | Ok certificateVersion =>
      Ok {| Name := name;
            WebPubsubId := webPubsubId;
            CustomCertId := customCertId;
            CertificateVersion := certificateVersion |}
  end end end end.

(** Modelled from the spec: [metadata.Encode], which writes the record's
    four fields back into the resource data under their tags. *)
Definition encode (state : CustomCertWebPubsubModel) (d : ResourceData)
  : ResourceData :=
  {| Id := Id d;
     attrs :=
       <["certificate_version" := TfString (CertificateVersion state)]>
       (<["custom_certificate_id" := TfString (CustomCertId state)]>
       (<["web_pubsub_id" := TfString (WebPubsubId state)]>
       (<["name" := TfString (Name state)]> (attrs d)))) |}.

(** [ResourceData.SetId]: the state key is replaced, the attributes stay. *)
Definition setId (id : string) (d : ResourceData) : ResourceData :=
  {| Id := id; attrs := attrs d |}.

Section Metadata.
Context {W : Type}.

Definition getResourceData : M W ResourceData :=
  λ st, (Return (resourceData st), st).

Definition modifyResourceData (f : ResourceData → ResourceData) : M W () :=
  λ st, (Return (),
         {| resourceData := f (resourceData st);
            remote := remote st;
            calls := calls st |}).

(** [metadata.ResourceData.Get(key).(string)]: the type assertion panics
    on a value that is not a string. *)
Definition ResourceData_GetString (key : string) : M W string :=
  λ st,
    match attrs (resourceData st) !! key with
    | None => (Return "", st)
    | Some (TfString s) => (Return s, st)
    | Some _ => (Panic, st)
    end.

(** [metadata.Encode] as a step of a resource function; it returns no
    error. *)
Definition Encode (state : CustomCertWebPubsubModel) : M W () :=
  modifyResourceData (encode state).

(** Modelled from the spec: [metadata.SetID] persists the formatted
    identifier as the binding's state key. *)
Definition SetID (id : CustomCertificateId) : M W () :=
  modifyResourceData (setId (webpubsub.CustomCertificateId_ID id)).

(** Modelled from the spec: [metadata.MarkAsGone] removes the binding
    from state (the state key is cleared) and returns no error. *)
Definition MarkAsGone (id : CustomCertificateId) : M W () :=
  modifyResourceData (setId "").

(** Modelled from the spec: [metadata.ResourceRequiresImport], the
    import-required error for the formatted identifier. *)
Definition ResourceRequiresImport (resourceName : string)
    (id : CustomCertificateId) : error :=
  tf.ImportAsExistsError resourceName (webpubsub.CustomCertificateId_ID id).

End Metadata.

End sdk.

(** ** The resource *)

Section CustomCertWebPubsubResource.

Context {W : Type} (clients : Clients W).

Import webpubsub sdk.

(** A call of a client method: the remote world advances and the call is
    recorded. *)
Definition remoteCall {A} (c : RemoteCall) (f : W → A * W) : M W A :=
  λ st,
    let '(a, w) := f (remote st) in
    (Return a,
     {| resourceData := resourceData st;
        remote := w;
        calls := calls st ++ [c] |}).

Definition CustomCertificatesGet (id : CustomCertificateId)
  : M W (CustomCertificatesGetOperationResponse * option error) :=
  remoteCall (CallCustomCertificatesGet id)
    (WebPubSub_CustomCertificatesGet clients id).

Definition CustomCertificatesCreateOrUpdateThenPoll
    (id : CustomCertificateId) (input : CustomCertificate)
  : M W (option error) :=
  remoteCall (CallCustomCertificatesCreateOrUpdateThenPoll id input)
    (WebPubSub_CustomCertificatesCreateOrUpdateThenPoll clients id input).

Definition CustomCertificatesDelete (id : CustomCertificateId)
  : M W (option http.Response * option error) :=
  remoteCall (CallCustomCertificatesDelete id)
    (WebPubSub_CustomCertificatesDelete clients id).

Definition KeyVaultIDFromBaseUrl (keyVaultBaseUrl : string)
  : M W (option string * option error) :=
  remoteCall (CallKeyVaultIDFromBaseUrl keyVaultBaseUrl)
    (KeyVault_KeyVaultIDFromBaseUrl clients keyVaultBaseUrl).

Definition ResourceType : string := "azurerm_web_pubsub_custom_certificate".

(** The remote object [Create] builds from the parsed reference. *)
Definition customCertObjOf (keyVaultCertificateId : keyVaultParse.NestedItemId)
  : CustomCertificate :=
  let keyVaultUri := keyVaultParse.KeyVaultBaseUrl keyVaultCertificateId in
  let keyVaultSecretName := keyVaultParse.Name keyVaultCertificateId in
  let customCertObj :=
    {| Properties :=
         {| KeyVaultBaseUri := keyVaultUri;
            KeyVaultSecretName := keyVaultSecretName;
            KeyVaultSecretVersion := None |} |} in
  if negb (String.eqb (keyVaultParse.Version keyVaultCertificateId) "")
  then {| Properties :=
            {| KeyVaultBaseUri := KeyVaultBaseUri (Properties customCertObj);
               KeyVaultSecretName := KeyVaultSecretName (Properties customCertObj);
               KeyVaultSecretVersion :=
                 utils.String (keyVaultParse.Version keyVaultCertificateId) |} |}
  else customCertObj.

Definition Create_Func : M W () :=
  d ← getResourceData;
  match Decode d with
  | Err err => throw (Errorf "decoding: %+v" [OpError (Some err)])
  | Ok customCertWebPubsub =>
  rawWebPubsubId ← ResourceData_GetString "web_pubsub_id";
  match ParseWebPubSubID rawWebPubsubId with
  | Err err =>
      throw (Errorf "parsing web pubsub service id error: %+v" [OpError (Some err)])
  | Ok webPubsubId =>
  rawCustomCertId ← ResourceData_GetString "custom_certificate_id";
  match keyVaultParse.ParseOptionallyVersionedNestedItemID rawCustomCertId with
  | Err err =>
      throw (Errorf "parsing custom certificate id error: %+v" [OpError (Some err)])
  | Ok keyVaultCertificateId =>
  let id :=
    NewCustomCertificateID (wps_SubscriptionId webPubsubId)
      (wps_ResourceGroupName webPubsubId) (wps_WebPubSubName webPubsubId)
      (Name customCertWebPubsub) in
  '(existing, err) ← CustomCertificatesGet id;
  if notNil err && negb (response.WasNotFound (HttpResponse existing)) then
    throw (Errorf "checking for existing %s: %+v"
             [OpCustomCertificateId id; OpError err])
  else
  if negb (response.WasNotFound (HttpResponse existing)) then
    throw (ResourceRequiresImport ResourceType id)
  else
  let customCertObj := customCertObjOf keyVaultCertificateId in
  err ← CustomCertificatesCreateOrUpdateThenPoll id customCertObj;
  if notNil err then
    throw (Errorf "creating web pubsub custom certificate: %s: %+v"
             [OpCustomCertificateId id; OpError err])
  else
  SetID id
  end end end.

Definition Create : ResourceFunc W :=
  {| Timeout := 30 * time.Minute; Func := Create_Func |}.

Definition Read_Func : M W () :=
  d ← getResourceData;
  match ParseCustomCertificateID (Id d) with
  | Err err => throw err
  | Ok id =>
  '(resp, err) ← CustomCertificatesGet id;
  if notNil err then
    if response.WasNotFound (HttpResponse resp) then MarkAsGone id
    else throw (Errorf "retrieving %s: %+v"
                  [OpCustomCertificateId id; OpError err])
  else
  match Model resp with
  | None =>
      throw (Errorf "retrieving %s: got nil model" [OpCustomCertificateId id])
  | Some model =>
  let vaultBasedUri := KeyVaultBaseUri (Properties model) in
  let certName := KeyVaultSecretName (Properties model) in
  '(keyVaultIdRaw, err) ← KeyVaultIDFromBaseUrl vaultBasedUri;
  if notNil err then
    throw (Errorf "getting key vault base uri from %s: %+v"
             [OpCustomCertificateId id; OpError err])
  else
  match keyVaultIdRaw with
  | None => panic
  | Some keyVaultId =>
  match commonids.ParseKeyVaultID keyVaultId with
  | Err err =>
      throw (Errorf "parsing key vault %s: %+v"
               [OpKeyVaultIdPtr None; OpError (Some err)])
  | Ok vaultId =>
  let certVersion :=
    match KeyVaultSecretVersion (Properties model) with
    | Some v => v
    | None => ""
    end in
  match keyVaultParse.NewNestedItemID vaultBasedUri "certificates" certName
          certVersion with
  | Err err => throw err
  | Ok nestedItem =>
  let certId := keyVaultParse.ID nestedItem in
  let state :=
    {| Name := CustomCertificateName id;
       CustomCertId := certId;
       WebPubsubId :=
         WebPubSubId_ID
           (NewWebPubSubID (SubscriptionId id) (ResourceGroupName id)
              (WebPubSubName id));
       CertificateVersion :=
         utils.NormalizeNilableString
           (KeyVaultSecretVersion (Properties model)) |} in
  Encode state
  end end end end end.

Definition Read : ResourceFunc W :=
  {| Timeout := 5 * time.Minute; Func := Read_Func |}.

Definition Delete_Func : M W () :=
  d ← getResourceData;
  match ParseCustomCertificateID (Id d) with
  | Err err => throw err
  | Ok id =>
  '(_, err) ← CustomCertificatesDelete id;
  if notNil err then
    throw (Errorf "deleting %s: %+v" [OpCustomCertificateId id; OpError err])
  else mret ()
  end.

Definition Delete : ResourceFunc W :=
  {| Timeout := 30 * time.Minute; Func := Delete_Func |}.

End CustomCertWebPubsubResource.

(** What [Create] derives from the configuration before it makes any remote
    call: the resource identifier and the parsed secret reference. *)
Definition derived (d : ResourceData)
  : option (CustomCertificateId * keyVaultParse.NestedItemId) :=
  match sdk.Decode d with
  | Ok customCertWebPubsub =>
      match webpubsub.ParseWebPubSubID (WebPubsubId customCertWebPubsub) with
      | Ok webPubsubId =>
          match keyVaultParse.ParseOptionallyVersionedNestedItemID
                  (CustomCertId customCertWebPubsub) with
          | Ok keyVaultCertificateId =>
              Some (webpubsub.NewCustomCertificateID
                      (wps_SubscriptionId webPubsubId)
                      (wps_ResourceGroupName webPubsubId)
                      (wps_WebPubSubName webPubsubId)
                      (Name customCertWebPubsub),
                    keyVaultCertificateId)
          | Err _ => None
          end
      | Err _ => None
      end
  | Err _ => None
  end.

(** What [Create] does once the identifier is derived: the existence check,
    the submission and the state key. *)
Definition createFrom {W} (clients : Clients W) (id : CustomCertificateId)
    (keyVaultCertificateId : keyVaultParse.NestedItemId) : M W () :=
  '(existing, err) ← CustomCertificatesGet clients id;
  if notNil err && negb (response.WasNotFound (HttpResponse existing)) then
    throw (Errorf "checking for existing %s: %+v"
             [OpCustomCertificateId id; OpError err])
  else
  if negb (response.WasNotFound (HttpResponse existing)) then
    throw (sdk.ResourceRequiresImport ResourceType id)
  else
  err ← CustomCertificatesCreateOrUpdateThenPoll clients id
          (customCertObjOf keyVaultCertificateId);
  if notNil err then
    throw (Errorf "creating web pubsub custom certificate: %s: %+v"
             [OpCustomCertificateId id; OpError err])
  else
  sdk.SetID id.

(** What [Read] does once it holds the remote object: the vault resolution,
    the rebuilt reference and the encoded record. *)
Definition readModel {W} (clients : Clients W) (id : CustomCertificateId)
    (model : CustomCertificate) : M W () :=
  let vaultBasedUri := KeyVaultBaseUri (Properties model) in
  let certName := KeyVaultSecretName (Properties model) in
  '(keyVaultIdRaw, err) ← KeyVaultIDFromBaseUrl clients vaultBasedUri;
  if notNil err then
    throw (Errorf "getting key vault base uri from %s: %+v"
             [OpCustomCertificateId id; OpError err])
  else
  match keyVaultIdRaw with
  | None => panic
  | Some keyVaultId =>
  match commonids.ParseKeyVaultID keyVaultId with
  | Err err =>
      throw (Errorf "parsing key vault %s: %+v"
               [OpKeyVaultIdPtr None; OpError (Some err)])
  | Ok vaultId =>
  let certVersion :=
    match KeyVaultSecretVersion (Properties model) with
    | Some v => v
    | None => ""
    end in
  match keyVaultParse.NewNestedItemID vaultBasedUri "certificates" certName
          certVersion with
  | Err err => throw err
  | Ok nestedItem =>
  let certId := keyVaultParse.ID nestedItem in
  let state :=
    {| Name := CustomCertificateName id;
       CustomCertId := certId;
       WebPubsubId :=
         webpubsub.WebPubSubId_ID
           (webpubsub.NewWebPubSubID (SubscriptionId id) (ResourceGroupName id)
              (WebPubSubName id));
       CertificateVersion :=
         utils.NormalizeNilableString
           (KeyVaultSecretVersion (Properties model)) |} in
  sdk.Encode state
  end end end.

(** The state after remote calls that left the resource data alone. *)
Definition afterCalls {W} (st : State W) (w : W) (cs : list RemoteCall) : State W :=
  {| resourceData := resourceData st; remote := w; calls := calls st ++ cs |}.

(** ** An in-memory remote

    A remote world that stores the certificates by identifier and knows the
    vaults by base address; the resource functions are run against it in the
    examples below. *)

Module stub.

Record World := {
  certificates : gmap string CustomCertificate;
  vaults : gmap string string;
}.

Definition status (code : Z) : option http.Response :=
  Some {| http.StatusCode := code |}.

Definition Get (id : CustomCertificateId) (w : World)
  : (CustomCertificatesGetOperationResponse * option error) * World :=
  match certificates w !! webpubsub.CustomCertificateId_ID id with
  | Some c =>
      (({| HttpResponse := status http.StatusOK; Model := Some c |}, None), w)
  | None =>
      (({| HttpResponse := status http.StatusNotFound; Model := None |},
        Some (errorString "unexpected status 404")), w)
  end.

Definition CreateOrUpdateThenPoll (id : CustomCertificateId)
    (input : CustomCertificate) (w : World) : option error * World :=
  (None,
   {| certificates :=
        <[webpubsub.CustomCertificateId_ID id := input]> (certificates w);
      vaults := vaults w |}).

Definition Delete (id : CustomCertificateId) (w : World)
  : (option http.Response * option error) * World :=
  ((status http.StatusOK, None),
   {| certificates :=
        delete (webpubsub.CustomCertificateId_ID id) (certificates w);
      vaults := vaults w |}).

Definition KeyVaultIDFromBaseUrl (keyVaultBaseUrl : string) (w : World)
  : (option string * option error) * World :=
  ((vaults w !! keyVaultBaseUrl, None), w).

Definition clients : Clients World :=
  {| WebPubSub_CustomCertificatesGet := Get;
     WebPubSub_CustomCertificatesCreateOrUpdateThenPoll := CreateOrUpdateThenPoll;
     WebPubSub_CustomCertificatesDelete := Delete;
     KeyVault_KeyVaultIDFromBaseUrl := KeyVaultIDFromBaseUrl |}.

Definition parentId : string :=
  "/subscriptions/sub1/resourceGroups/rg1/providers/Microsoft.SignalRService/webPubSub/svcA".

Definition certId : CustomCertificateId :=
  webpubsub.NewCustomCertificateID "sub1" "rg1" "svcA" "cert1".

Definition vaultId : string :=
  "/subscriptions/sub1/resourceGroups/rg1/providers/Microsoft.KeyVault/vaults/vault1".

(** The configuration of the example scenario, for a given reference. *)
Definition config (customCertificateId : string) : ResourceData :=
  {| Id := "";
     attrs :=
       <["name" := TfString "cert1"]>
       (<["web_pubsub_id" := TfString parentId]>
       (<["custom_certificate_id" := TfString customCertificateId]> ∅)) |}.

Definition emptyWorld : World :=
  {| certificates := ∅;
     vaults := {[ "https://vault1.vault.azure.net/" := vaultId ]} |}.

Definition initial (customCertificateId : string) : State World :=
  {| resourceData := config customCertificateId;
     remote := emptyWorld;
     calls := [] |}.

(** [Create] followed by [Read] on the state [Create] left. *)
Definition createThenRead (st : State World)
  : Outcome () * Outcome () * State World :=
  let '(o1, st1) := Func (Create clients) st in
  let '(o2, st2) := Func (Read clients) st1 in
  (o1, o2, st2).

Definition secretRef : string :=
  "https://vault1.vault.azure.net/secrets/mycert/abc123".

Definition certificateRef : string :=
  "https://vault1.vault.azure.net/certificates/mycert/abc123".

Definition latestRef : string :=
  "https://vault1.vault.azure.net/certificates/mycert".

(** The state [Create] leaves for a given reference. *)
Definition created (customCertificateId : string) : State World :=
  (Func (Create clients) (initial customCertificateId)).2.

(** The same state after the remote object was removed out of band. *)
Definition vanished : State World :=
  {| resourceData := resourceData (created certificateRef);
     remote := emptyWorld;
     calls := [] |}.

Definition parsedRef (version : string) : keyVaultParse.NestedItemId :=
  {| keyVaultParse.KeyVaultBaseUrl := "https://vault1.vault.azure.net/";
     keyVaultParse.NestedItemType := "certificates";
     keyVaultParse.Name := "mycert";
     keyVaultParse.Version := version |}.

Definition storedObject (version : option string) : CustomCertificate :=
  {| Properties :=
       {| KeyVaultBaseUri := "https://vault1.vault.azure.net/";
          KeyVaultSecretName := "mycert";
          KeyVaultSecretVersion := version |} |}.

Definition found (c : CustomCertificate)
  : CustomCertificatesGetOperationResponse :=
  {| HttpResponse := status http.StatusOK; Model := Some c |}.

Definition notFound : CustomCertificatesGetOperationResponse :=
  {| HttpResponse := status http.StatusNotFound; Model := None |}.

(** A remote whose Get answers 200 with an empty body. *)
Definition emptyBody : CustomCertificatesGetOperationResponse :=
  {| HttpResponse := status http.StatusOK; Model := None |}.

Definition emptyBodyClients : Clients World :=
  {| WebPubSub_CustomCertificatesGet := λ _ w, ((emptyBody, None), w);
     WebPubSub_CustomCertificatesCreateOrUpdateThenPoll := CreateOrUpdateThenPoll;
     WebPubSub_CustomCertificatesDelete := Delete;
     KeyVault_KeyVaultIDFromBaseUrl := KeyVaultIDFromBaseUrl |}.

End stub.

(** ** The schema

    [Arguments] and [Attributes] as the tables they return; a validation
    function is kept by its name. *)

Module pluginsdk.

Inductive ValueType : Type :=
| TypeBool
| TypeInt
| TypeString.

#[warnings="-register-all"]
Inductive SchemaValidateFunc : Type :=
| StringIsNotEmpty
| ValidateWebPubSubID
| NestedItemId
| NestedItemIdWithOptionalVersion
| Any (validators : list SchemaValidateFunc).

(** The fields of [pluginsdk.Schema] the resource sets; a field left out of
    a literal has Go's zero value. *)
Record Schema := {
  Type_ : ValueType;
  Required : bool;
  Computed : bool;
  ForceNew : bool;
  ValidateFunc : option SchemaValidateFunc;
}.

End pluginsdk.

Definition Arguments : gmap string pluginsdk.Schema :=
  <["name" :=
      {| pluginsdk.Type_ := pluginsdk.TypeString;
         pluginsdk.Required := true;
         pluginsdk.Computed := false;
         pluginsdk.ForceNew := true;
         pluginsdk.ValidateFunc := Some pluginsdk.StringIsNotEmpty |}]>
  (<["web_pubsub_id" :=
      {| pluginsdk.Type_ := pluginsdk.TypeString;
         pluginsdk.Required := true;
         pluginsdk.Computed := false;
         pluginsdk.ForceNew := true;
         pluginsdk.ValidateFunc := Some pluginsdk.ValidateWebPubSubID |}]>
  (<["custom_certificate_id" :=
      {| pluginsdk.Type_ := pluginsdk.TypeString;
         pluginsdk.Required := true;
         pluginsdk.Computed := false;
         pluginsdk.ForceNew := true;
         pluginsdk.ValidateFunc :=
           Some (pluginsdk.Any [pluginsdk.NestedItemId;
                                pluginsdk.NestedItemIdWithOptionalVersion]) |}]>
   ∅)).

Definition Attributes : gmap string pluginsdk.Schema :=
  <["certificate_version" :=
      {| pluginsdk.Type_ := pluginsdk.TypeString;
         pluginsdk.Required := false;
         pluginsdk.Computed := true;
         pluginsdk.ForceNew := false;
         pluginsdk.ValidateFunc := None |}]> ∅.

(** The [tfschema] tags of [CustomCertWebPubsubModel], in field order. *)
Definition modelTags : list string :=
  ["name"; "web_pubsub_id"; "custom_certificate_id"; "certificate_version"].

(** The remote calls that only read. *)
Definition isQuery (c : RemoteCall) : bool :=
  match c with
  | CallCustomCertificatesGet _ | CallKeyVaultIDFromBaseUrl _ => true
  | CallCustomCertificatesCreateOrUpdateThenPoll _ _
  | CallCustomCertificatesDelete _ => false
  end.

(** ** Remotes that fail

    Variants of the in-memory remote in which one call fails. *)

Module faulty.

Definition refused : error := errorString "the remote refused the request".

Definition submitFails : Clients stub.World :=
  {| WebPubSub_CustomCertificatesGet := stub.Get;
     WebPubSub_CustomCertificatesCreateOrUpdateThenPoll :=
       λ _ _ w, (Some refused, w);
     WebPubSub_CustomCertificatesDelete := stub.Delete;
     KeyVault_KeyVaultIDFromBaseUrl := stub.KeyVaultIDFromBaseUrl |}.

Definition deleteFails : Clients stub.World :=
  {| WebPubSub_CustomCertificatesGet := stub.Get;
     WebPubSub_CustomCertificatesCreateOrUpdateThenPoll :=
       stub.CreateOrUpdateThenPoll;
     WebPubSub_CustomCertificatesDelete :=
       λ _ w, ((stub.status 500, Some refused), w);
     KeyVault_KeyVaultIDFromBaseUrl := stub.KeyVaultIDFromBaseUrl |}.

Definition resolverFails : Clients stub.World :=
  {| WebPubSub_CustomCertificatesGet := stub.Get;
     WebPubSub_CustomCertificatesCreateOrUpdateThenPoll :=
       stub.CreateOrUpdateThenPoll;
     WebPubSub_CustomCertificatesDelete := stub.Delete;
     KeyVault_KeyVaultIDFromBaseUrl := λ _ w, ((None, Some refused), w) |}.

(** The state [Create] leaves, with the vault directory changed. *)
Definition withVaults (vaults : gmap string string) : State stub.World :=
  {| resourceData := resourceData (stub.created stub.certificateRef);
     remote :=
       {| stub.certificates :=
            stub.certificates (remote (stub.created stub.certificateRef));
          stub.vaults := vaults |};
     calls := [] |}.

(** The vault is unknown to the resolver: neither an identifier nor an
    error comes back. *)
Definition unknownVault : State stub.World := withVaults ∅.

(** The resolver answers with a string that is no vault identifier. *)
Definition malformedVault : State stub.World :=
  withVaults {[ "https://vault1.vault.azure.net/" := "vault1" ]}.

(** A state whose key is not a resource identifier. *)
Definition malformedKey : State stub.World :=
  {| resourceData := sdk.setId "cert1" (stub.config stub.certificateRef);
     remote := stub.emptyWorld;
     calls := [] |}.

(** The state [Create] leaves, with a "/" added after the state key. *)
Definition keyWithTrailingSlash : State stub.World :=
  {| resourceData :=
       sdk.setId (webpubsub.CustomCertificateId_ID stub.certId ++ "/")
         (resourceData (stub.created stub.certificateRef));
     remote := remote (stub.created stub.certificateRef);
     calls := [] |}.

(** The example configuration with a "/" in the name. *)
Definition nameWithSlash : State stub.World :=
  {| resourceData :=
       {| Id := "";
          attrs :=
            <["name" := TfString "a/b"]>
              (attrs (stub.config stub.certificateRef)) |};
     remote := stub.emptyWorld;
     calls := [] |}.

(** The example configuration with a "/" after the parent identifier. *)
Definition parentWithTrailingSlash : State stub.World :=
  {| resourceData :=
       {| Id := "";
          attrs :=
            <["web_pubsub_id" := TfString (stub.parentId ++ "/")]>
              (attrs (stub.config stub.certificateRef)) |};
     remote := stub.emptyWorld;
     calls := [] |}.

(** A configuration whose parent identifier does not parse. *)
Definition malformedParent : State stub.World :=
  {| resourceData :=
       {| Id := "";
          attrs :=
            <["web_pubsub_id" := TfString "/subscriptions/sub1"]>
              (attrs (stub.config stub.certificateRef)) |};
     remote := stub.emptyWorld;
     calls := [] |}.

End faulty.

(** * Properties *)

(** ** Splitting and joining on "/" *)

Section SplitJoin.

Import GoStrings.

Lemma Split_nonempty s c : Split s c ≠ [].
Proof.
  destruct s as [|d s]; simpl; [done|].
  destruct (Ascii.eqb d c); [done|].
  by destruct (Split s c).
Qed.

Lemma Split_no_sep s c : ContainsByte s c = false → Split s c = [s].
Proof.
  induction s as [|d s IH]; simpl; [done|].
  intros [Hd Hs]%orb_false_iff. rewrite Hd, (IH Hs). done.
Qed.

Lemma Split_app_sep s t c :
  ContainsByte s c = false →
  Split (s ++ String c t) c = s :: Split t c.
Proof.
  induction s as [|d s IH]; simpl.
  - intros _. by rewrite Ascii.eqb_refl.
  - intros [Hd Hs]%orb_false_iff. rewrite Hd, (IH Hs). done.
Qed.

Lemma Split_Join (elems : list string) :
  elems ≠ [] →
  Forall (λ s, ContainsByte s "/" = false) elems →
  Split (Join elems "/") "/" = elems.
Proof.
  induction elems as [|e rest IH]; [done|].
  intros _ Hall. inversion Hall as [|? ? He Hrest]; subst.
  destruct rest as [|e' rest'].
  - simpl. by apply Split_no_sep.
  - change (Join (e :: e' :: rest') "/")
      with (e ++ String "/" (Join (e' :: rest') "/")).
    rewrite Split_app_sep by done.
    f_equal. by apply IH.
Qed.

Lemma Split_components s c :
  Forall (λ p, ContainsByte p c = false) (Split s c).
Proof.
  induction s as [|d s IH]; simpl.
  - by constructor.
  - destruct (Ascii.eqb d c) eqn:Hd.
    + by constructor.
    + destruct (Split s c) as [|seg segs] eqn:Hs.
      * constructor; [|done]. simpl. by rewrite Hd.
      * inversion IH; subst. constructor; [|done].
        simpl. by rewrite Hd.
Qed.

Lemma Join_Split s : Join (Split s "/") "/" = s.
Proof.
  induction s as [|d s IH]; simpl; [done|].
  destruct (Ascii.eqb d "/") eqn:Hd.
  - apply Ascii.eqb_eq in Hd as ->.
    pose proof (Split_nonempty s "/") as Hne.
    destruct (Split s "/") as [|seg segs]; [done|].
    simpl in *. by rewrite IH.
  - destruct (Split s "/") as [|seg segs] eqn:Hs.
    + by apply Split_nonempty in Hs.
    + destruct segs; simpl in *; by rewrite <- IH.
Qed.

End SplitJoin.

(** ** Resource identifiers: formatting and parsing are inverse *)

Section ResourceIds.

Import GoStrings resourceids.

Lemma validSegment_spec s :
  validSegment s = true ↔ String.eqb s "" = false ∧ ContainsByte s "/" = false.
Proof.
  unfold validSegment.
  rewrite andb_true_iff, !negb_true_iff. done.
Qed.

Lemma parseSegments_formatSegments segments values :
  Forall (λ v, validSegment v = true) values →
  userSpecifiedCount segments = length values →
  parseSegments segments (formatSegments segments values) = Some values.
Proof.
  revert values.
  induction segments as [|[v|n] segments IH]; intros values Hvalid Hlen.
  - destruct values; [done|discriminate].
  - simpl. rewrite String.eqb_refl. by apply IH.
  - destruct values as [|x values]; [discriminate|].
    inversion Hvalid as [|? ? Hx Hrest]; subst.
    apply validSegment_spec in Hx as [Hx _].
    simpl. rewrite Hx, IH; [done|done|].
    simpl in Hlen. lia.
Qed.

Lemma formatSegments_slashFree segments values :
  Forall (λ g, staticSlashFree g = true) segments →
  Forall (λ v, validSegment v = true) values →
  Forall (λ s, ContainsByte s "/" = false) (formatSegments segments values).
Proof.
  intros Hseg. revert values.
  induction Hseg as [|[v|n] segments Hg Hsegs IH]; intros values Hvalid.
  - destruct values; constructor.
  - simpl. constructor; [|by apply IH].
    simpl in Hg. by apply negb_true_iff in Hg.
  - destruct values as [|x values]; [constructor|].
    inversion Hvalid as [|? ? Hx Hrest]; subst.
    simpl. constructor; [|by apply IH].
    by apply validSegment_spec in Hx as [_ Hx].
Qed.

(** Formatting then parsing gives the values back. *)
Lemma Parse_Format segments values :
  segments ≠ [] →
  Forall (λ g, staticSlashFree g = true) segments →
  Forall (λ v, validSegment v = true) values →
  userSpecifiedCount segments = length values →
  Parse segments (Format segments values) = Some values.
Proof.
  intros Hne Hseg Hvalid Hlen.
  unfold Format.
  change (Parse segments ("/" ++ ?r)) with (parseSegments segments (Split r "/")).
  rewrite Split_Join.
  - by apply parseSegments_formatSegments.
  - destruct segments as [|[v|n] segments]; [done|done|].
    destruct values; [discriminate|done].
  - by apply formatSegments_slashFree.
Qed.

(** What was parsed is made of valid segments, one for each user-specified
    segment. *)
Lemma parseSegments_valid segments components values :
  Forall (λ p, ContainsByte p "/" = false) components →
  parseSegments segments components = Some values →
  Forall (λ v, validSegment v = true) values
  ∧ userSpecifiedCount segments = length values.
Proof.
  revert components values.
  induction segments as [|[v|n] segments IH]; intros components values Hc Hp.
  - destruct components as [|c [|? ?]]; try destruct c; simpl in Hp;
      try discriminate; injection Hp as <-; by split.
  - destruct components as [|c components]; [discriminate|].
    simpl in Hp. destruct (String.eqb c v); [|discriminate].
    inversion Hc; subst. by eapply IH.
  - destruct components as [|c components]; [discriminate|].
    simpl in Hp. destruct (String.eqb c "") eqn:Hce; [discriminate|].
    destruct (parseSegments segments components) as [vs|] eqn:Hps; [|discriminate].
    injection Hp as <-.
    inversion Hc; subst.
    destruct (IH _ _ ltac:(eassumption) Hps) as (Hv & Hl).
    simpl. split; [|by rewrite Hl].
    constructor; [|done].
    apply validSegment_spec. done.
Qed.

Lemma Parse_valid segments input values :
  Parse segments input = Some values →
  Forall (λ v, validSegment v = true) values
  ∧ userSpecifiedCount segments = length values.
Proof.
  unfold Parse. intros Hp.
  eapply parseSegments_valid; [apply Split_components|exact Hp].
Qed.

End ResourceIds.

(** ** The derived identifier *)

Section Identifier.

Import resourceids webpubsub.

Lemma CustomCertificateSegments_slashFree :
  Forall (λ g, staticSlashFree g = true) CustomCertificateSegments.
Proof. repeat constructor. Qed.

Lemma ParseWebPubSubID_inv input id :
  ParseWebPubSubID input = Ok id →
  Parse WebPubSubSegments input
  = Some [wps_SubscriptionId id; wps_ResourceGroupName id; wps_WebPubSubName id].
Proof.
  unfold ParseWebPubSubID.
  destruct (Parse WebPubSubSegments input) as [[|a [|b [|c [|? ?]]]]|];
    try discriminate.
  by intros [= <-].
Qed.

Lemma WebPubSubSegments_slashFree :
  Forall (λ g, staticSlashFree g = true) WebPubSubSegments.
Proof. repeat constructor. Qed.

(** The parser takes an identifier without the leading "/" and one with a
    "/" after the last segment; it refuses an empty component. *)
Example ParseCustomCertificateID_leniency :
  ParseCustomCertificateID
    "subscriptions/sub1/resourceGroups/rg1/providers/Microsoft.SignalRService/webPubSub/svcA/customCertificates/cert1"
  = Ok stub.certId
  ∧ ParseCustomCertificateID (CustomCertificateId_ID stub.certId ++ "/")
    = Ok stub.certId
  ∧ ParseCustomCertificateID (CustomCertificateId_ID stub.certId ++ "//")
    = Err (Errorf "parsing %q" [OpString (CustomCertificateId_ID stub.certId ++ "//")])
  ∧ ParseCustomCertificateID ("/" ++ CustomCertificateId_ID stub.certId)
    = Err (Errorf "parsing %q" [OpString ("/" ++ CustomCertificateId_ID stub.certId)]).
Proof. repeat split; vm_compute; reflexivity. Qed.

(** C6 as stated does not hold: the name "a/b" passes the schema's check
    of the name and the parent identifier parses, [Create] succeeds with
    them, yet the identifier derived from them does not parse back, and the
    [Read] that follows [Create] fails on the state key. *)
Lemma identifier_round_trip_fails_for_name_with_slash :
  ParseWebPubSubID stub.parentId = Ok (NewWebPubSubID "sub1" "rg1" "svcA")
  ∧ validation.StringIsNotEmpty "a/b" = true
  ∧ (Func (Create stub.clients) faulty.nameWithSlash).1 = Return ()
  ∧ Id (resourceData (Func (Create stub.clients) faulty.nameWithSlash).2)
    = CustomCertificateId_ID (NewCustomCertificateID "sub1" "rg1" "svcA" "a/b")
  ∧ (¬ ∃ parsed,
         ParseCustomCertificateID
           (CustomCertificateId_ID
              (NewCustomCertificateID "sub1" "rg1" "svcA" "a/b"))
         = Ok parsed)
  ∧ ∃ e,
      (Func (Read stub.clients)
         (Func (Create stub.clients) faulty.nameWithSlash).2).1 = Fail e.
Proof.
  repeat split; try (vm_compute; reflexivity).
  - intros [parsed Hparsed]. vm_compute in Hparsed. discriminate.
  - eexists. vm_compute. reflexivity.
Qed.

(** C6, amended: for a parent-service identifier that parses and a binding
    name that is one path segment (not empty, no "/"), the identifier
    derived by [NewCustomCertificateID] formats to a string that parses back
    to the same subscription, resource group, service name and binding
    name, and the parent identifier rebuilt from it parses to the same
    parent. *)
Theorem identifier_round_trip (parent name : string) (webPubsubId : WebPubSubId) :
  ParseWebPubSubID parent = Ok webPubsubId →
  validSegment name = true →
  ∃ parsed,
    ParseCustomCertificateID
      (CustomCertificateId_ID
         (NewCustomCertificateID (wps_SubscriptionId webPubsubId)
            (wps_ResourceGroupName webPubsubId) (wps_WebPubSubName webPubsubId)
            name))
    = Ok parsed
    ∧ SubscriptionId parsed = wps_SubscriptionId webPubsubId
    ∧ ResourceGroupName parsed = wps_ResourceGroupName webPubsubId
    ∧ WebPubSubName parsed = wps_WebPubSubName webPubsubId
    ∧ CustomCertificateName parsed = name
    ∧ ParseWebPubSubID
        (WebPubSubId_ID
           (NewWebPubSubID (SubscriptionId parsed) (ResourceGroupName parsed)
              (WebPubSubName parsed)))
      = Ok webPubsubId.
Proof.
  intros Hparent Hname.
  apply ParseWebPubSubID_inv, Parse_valid in Hparent as (Hvalid & _).
  exists (NewCustomCertificateID (wps_SubscriptionId webPubsubId)
            (wps_ResourceGroupName webPubsubId) (wps_WebPubSubName webPubsubId)
            name).
  inversion Hvalid as [|? ? H1 Hv1]; subst.
  inversion Hv1 as [|? ? H2 Hv2]; subst.
  inversion Hv2 as [|? ? H3 Hv3]; subst.
  repeat split.
  - unfold ParseCustomCertificateID, CustomCertificateId_ID.
    rewrite Parse_Format;
      [done|done|apply CustomCertificateSegments_slashFree| |done].
    repeat constructor; done.
  - unfold ParseWebPubSubID, WebPubSubId_ID.
    rewrite Parse_Format; [|done|apply WebPubSubSegments_slashFree| |done].
    + by destruct webPubsubId.
    + repeat constructor; done.
Qed.

Lemma identifier_round_trip_witness :
  ∃ parsed,
    ParseCustomCertificateID
      (CustomCertificateId_ID (NewCustomCertificateID "sub1" "rg1" "svcA" "cert1"))
    = Ok parsed
    ∧ CustomCertificateName parsed = "cert1"
    ∧ ParseWebPubSubID
        (WebPubSubId_ID
           (NewWebPubSubID (SubscriptionId parsed) (ResourceGroupName parsed)
              (WebPubSubName parsed)))
      = Ok (NewWebPubSubID "sub1" "rg1" "svcA").
Proof.
  destruct (identifier_round_trip stub.parentId "cert1"
              (NewWebPubSubID "sub1" "rg1" "svcA") eq_refl eq_refl)
    as (parsed & Hparse & _ & _ & _ & Hname & Hparent).
  exists parsed. repeat split; assumption.
Defined.

End Identifier.

(** ** Running the resource functions *)

Section Run.

Context {W : Type} (clients : Clients W).

Import webpubsub sdk.

Lemma decodeString_GetString (st : State W) tag s :
  decodeString (resourceData st) tag = Ok s →
  ResourceData_GetString tag st = (Return s, st).
Proof.
  unfold decodeString, ResourceData_GetString.
  destruct (attrs (resourceData st) !! tag) as [[]|]; by intros [= <-].
Qed.

Lemma Decode_inv d m :
  Decode d = Ok m →
  decodeString d "name" = Ok (Name m)
  ∧ decodeString d "web_pubsub_id" = Ok (WebPubsubId m)
  ∧ decodeString d "custom_certificate_id" = Ok (CustomCertId m)
  ∧ decodeString d "certificate_version" = Ok (CertificateVersion m).
Proof.
  unfold Decode.
  destruct (decodeString d "name"); [|discriminate].
  destruct (decodeString d "web_pubsub_id"); [|discriminate].
  destruct (decodeString d "custom_certificate_id"); [|discriminate].
  destruct (decodeString d "certificate_version"); [|discriminate].
  by intros [= <-].
Qed.

Lemma Create_Func_cases (st : State W) :
  match derived (resourceData st) with
  | Some (id, keyVaultCertificateId) =>
      Create_Func clients st = createFrom clients id keyVaultCertificateId st
  | None => ∃ e, Create_Func clients st = (Fail e, st)
  end.
Proof.
  unfold derived, Create_Func, mbind, M_bind, getResourceData.
  destruct (Decode (resourceData st)) as [m|e] eqn:Hdec; [|by eexists].
  apply Decode_inv in Hdec as (_ & Hw & Hc & _).
  rewrite (decodeString_GetString _ _ _ Hw).
  destruct (ParseWebPubSubID (WebPubsubId m)) as [w|e]; [|by eexists].
  rewrite (decodeString_GetString _ _ _ Hc).
  destruct (keyVaultParse.ParseOptionallyVersionedNestedItemID (CustomCertId m))
    as [kv|e];
    [|by eexists].
  reflexivity.
Qed.

End Run.

(** ** Create *)

Section CreateProperties.

Context {W : Type} (clients : Clients W).

Import webpubsub sdk.

(** C2: when the existence check does not answer not-found, [Create]
    stops there.  It returns the lookup error if the check failed and the
    import-required error otherwise; the only remote call made is the
    check itself and the resource data is left as it was. *)
Theorem Create_existing_requires_import
    (st : State W) (id : CustomCertificateId)
    (keyVaultCertificateId : keyVaultParse.NestedItemId)
    (existing : CustomCertificatesGetOperationResponse) (err : option error) (w : W) :
  derived (resourceData st) = Some (id, keyVaultCertificateId) →
  WebPubSub_CustomCertificatesGet clients id (remote st) = ((existing, err), w) →
  response.WasNotFound (HttpResponse existing) = false →
  Func (Create clients) st =
    (Fail (match err with
           | Some _ =>
               Errorf "checking for existing %s: %+v"
                 [OpCustomCertificateId id; OpError err]
           | None => tf.ImportAsExistsError ResourceType (CustomCertificateId_ID id)
           end),
     afterCalls st w [CallCustomCertificatesGet id]).
Proof.
  intros Hd Hget Hnf.
  pose proof (Create_Func_cases clients st) as Hrun.
  rewrite Hd in Hrun. simpl. rewrite Hrun.
  unfold createFrom, mbind, M_bind, CustomCertificatesGet, remoteCall.
  rewrite Hget. simpl. rewrite Hnf.
  by destruct err.
Qed.

(** C4: when the existence check answers not-found, [Create] submits one
    object for the derived identifier; its vault base address and secret
    name are those of the parsed reference, and it has a version field
    exactly when the parsed version is not empty, holding that version. *)
Theorem Create_submits_parsed_reference
    (st : State W) (id : CustomCertificateId)
    (keyVaultCertificateId : keyVaultParse.NestedItemId)
    (existing : CustomCertificatesGetOperationResponse) (err : option error) (w : W) :
  derived (resourceData st) = Some (id, keyVaultCertificateId) →
  WebPubSub_CustomCertificatesGet clients id (remote st) = ((existing, err), w) →
  response.WasNotFound (HttpResponse existing) = true →
  ∃ customCertObj,
    calls (Func (Create clients) st).2 =
      (calls st ++ [CallCustomCertificatesGet id;
                    CallCustomCertificatesCreateOrUpdateThenPoll id customCertObj])%list
    ∧ KeyVaultBaseUri (Properties customCertObj)
      = keyVaultParse.KeyVaultBaseUrl keyVaultCertificateId
    ∧ KeyVaultSecretName (Properties customCertObj)
      = keyVaultParse.Name keyVaultCertificateId
    ∧ (KeyVaultSecretVersion (Properties customCertObj) ≠ None
       ↔ keyVaultParse.Version keyVaultCertificateId ≠ "")
    ∧ (∀ v, KeyVaultSecretVersion (Properties customCertObj) = Some v
            → v = keyVaultParse.Version keyVaultCertificateId).
Proof.
  intros Hd Hget Hnf.
  pose proof (Create_Func_cases clients st) as Hrun.
  rewrite Hd in Hrun. simpl. rewrite Hrun.
  exists (customCertObjOf keyVaultCertificateId).
  split.
  - unfold createFrom, mbind, M_bind, CustomCertificatesGet,
      CustomCertificatesCreateOrUpdateThenPoll, remoteCall.
    rewrite Hget. simpl. rewrite Hnf, andb_false_r. simpl.
    destruct (WebPubSub_CustomCertificatesCreateOrUpdateThenPoll _ _ _ _)
      as [[e|] w'] eqn:Hsubmit; simpl; by rewrite <- app_assoc.
  - unfold customCertObjOf.
    destruct (String.eqb (keyVaultParse.Version keyVaultCertificateId) "") eqn:Hv; simpl.
    + apply String.eqb_eq in Hv. repeat split; done.
    + apply String.eqb_neq in Hv. repeat split; try done.
      unfold utils.String. by intros v [= <-].
Qed.

(** C9: a [Create] that succeeds leaves the derived identifier as the
    state key and changes nothing else in the resource data; no attribute,
    [certificate_version] included, is written. *)
Theorem Create_success_only_sets_id (st st' : State W) :
  Func (Create clients) st = (Return (), st') →
  ∃ id keyVaultCertificateId,
    derived (resourceData st) = Some (id, keyVaultCertificateId)
    ∧ Id (resourceData st') = CustomCertificateId_ID id
    ∧ attrs (resourceData st') = attrs (resourceData st)
    ∧ attrs (resourceData st') !! "certificate_version"
      = attrs (resourceData st) !! "certificate_version".
Proof.
  simpl. intros Hrun.
  pose proof (Create_Func_cases clients st) as Hcases.
  destruct (derived (resourceData st)) as [[id kv]|].
  - exists id, kv. split; [done|].
    rewrite Hcases in Hrun.
    unfold createFrom, mbind, M_bind, CustomCertificatesGet,
      CustomCertificatesCreateOrUpdateThenPoll, remoteCall in Hrun.
    destruct (WebPubSub_CustomCertificatesGet clients id (remote st))
      as [[existing err] w].
    simpl in Hrun.
    destruct (notNil err && negb (response.WasNotFound (HttpResponse existing)));
      [discriminate|].
    destruct (negb (response.WasNotFound (HttpResponse existing)));
      [discriminate|].
    simpl in Hrun.
    destruct (WebPubSub_CustomCertificatesCreateOrUpdateThenPoll _ _ _ _)
      as [[e|] w']; [discriminate|].
    simpl in Hrun. injection Hrun as <-. simpl. done.
  - destruct Hcases as [e He]. rewrite He in Hrun. discriminate.
Qed.

End CreateProperties.

Lemma Create_existing_requires_import_witness :
  Func (Create stub.clients) (stub.created stub.certificateRef) =
    (Fail (tf.ImportAsExistsError ResourceType
             (webpubsub.CustomCertificateId_ID stub.certId)),
     afterCalls (stub.created stub.certificateRef)
       (remote (stub.created stub.certificateRef))
       [CallCustomCertificatesGet stub.certId]).
Proof.
  apply (Create_existing_requires_import stub.clients
           (stub.created stub.certificateRef) stub.certId
           (stub.parsedRef "abc123")
           (stub.found (stub.storedObject (Some "abc123"))) None
           (remote (stub.created stub.certificateRef)));
    vm_compute; reflexivity.
Defined.

Lemma Create_submits_parsed_reference_witness :
  ∃ customCertObj,
    calls (Func (Create stub.clients) (stub.initial stub.latestRef)).2 =
      [CallCustomCertificatesGet stub.certId;
       CallCustomCertificatesCreateOrUpdateThenPoll stub.certId customCertObj]
    ∧ KeyVaultSecretVersion (Properties customCertObj) = None.
Proof.
  destruct (Create_submits_parsed_reference stub.clients
              (stub.initial stub.latestRef) stub.certId (stub.parsedRef "")
              stub.notFound (Some (errorString "unexpected status 404"))
              stub.emptyWorld eq_refl eq_refl eq_refl)
    as (customCertObj & Hcalls & _ & _ & Hversion & _).
  exists customCertObj. split; [exact Hcalls|].
  destruct (KeyVaultSecretVersion (Properties customCertObj)); [|reflexivity].
  exfalso. apply (proj1 Hversion); [discriminate|reflexivity].
Defined.

Lemma Create_success_only_sets_id_witness :
  ∃ id keyVaultCertificateId,
    derived (stub.config stub.certificateRef) = Some (id, keyVaultCertificateId)
    ∧ Id (resourceData (stub.created stub.certificateRef))
      = webpubsub.CustomCertificateId_ID id
    ∧ attrs (resourceData (stub.created stub.certificateRef))
      = attrs (stub.config stub.certificateRef)
    ∧ attrs (resourceData (stub.created stub.certificateRef)) !! "certificate_version"
      = attrs (stub.config stub.certificateRef) !! "certificate_version".
Proof.
  apply (Create_success_only_sets_id stub.clients
           (stub.initial stub.certificateRef) (stub.created stub.certificateRef)).
  vm_compute. reflexivity.
Defined.

(** ** Read *)

Section ReadProperties.

Context {W : Type} (clients : Clients W).

Import GoStrings webpubsub sdk.

Lemma Read_Func_Get (st : State W) id resp err w :
  ParseCustomCertificateID (Id (resourceData st)) = Ok id →
  WebPubSub_CustomCertificatesGet clients id (remote st) = ((resp, err), w) →
  Read_Func clients st =
    (if notNil err then
       if response.WasNotFound (HttpResponse resp) then MarkAsGone id
       else throw (Errorf "retrieving %s: %+v"
                     [OpCustomCertificateId id; OpError err])
     else
       match Model resp with
       | None =>
           throw (Errorf "retrieving %s: got nil model" [OpCustomCertificateId id])
       | Some model => readModel clients id model
       end)
      (afterCalls st w [CallCustomCertificatesGet id]).
Proof.
  intros Hid Hget.
  unfold Read_Func, mbind, M_bind, getResourceData.
  rewrite Hid.
  unfold CustomCertificatesGet, remoteCall. rewrite Hget. reflexivity.
Qed.

(** C3: when the Get of the persisted identifier fails, [Read] removes the
    binding from state and returns no error if the answer was not-found,
    and returns the failure as an error otherwise. *)
Theorem Read_not_found_marks_gone
    (st : State W) (id : CustomCertificateId)
    (resp : CustomCertificatesGetOperationResponse) (e : error) (w : W) :
  ParseCustomCertificateID (Id (resourceData st)) = Ok id →
  WebPubSub_CustomCertificatesGet clients id (remote st) = ((resp, Some e), w) →
  Func (Read clients) st =
    if response.WasNotFound (HttpResponse resp) then
      (Return (),
       {| resourceData := setId "" (resourceData st);
          remote := w;
          calls := (calls st ++ [CallCustomCertificatesGet id])%list |})
    else
      (Fail (Errorf "retrieving %s: %+v"
               [OpCustomCertificateId id; OpError (Some e)]),
       afterCalls st w [CallCustomCertificatesGet id]).
Proof.
  intros Hid Hget. simpl.
  rewrite (Read_Func_Get st id resp (Some e) w Hid Hget). simpl.
  by destruct (response.WasNotFound (HttpResponse resp)).
Qed.

(** C7: when the Get succeeds but the response has no model, [Read] fails
    with the nil-model error and writes nothing. *)
Theorem Read_nil_model_fails
    (st : State W) (id : CustomCertificateId)
    (resp : CustomCertificatesGetOperationResponse) (w : W) :
  ParseCustomCertificateID (Id (resourceData st)) = Ok id →
  WebPubSub_CustomCertificatesGet clients id (remote st) = ((resp, None), w) →
  Model resp = None →
  Func (Read clients) st =
    (Fail (Errorf "retrieving %s: got nil model" [OpCustomCertificateId id]),
     afterCalls st w [CallCustomCertificatesGet id]).
Proof.
  intros Hid Hget Hmodel. simpl.
  rewrite (Read_Func_Get st id resp None w Hid Hget). simpl.
  by rewrite Hmodel.
Qed.

(** C5: for a remote object without a version field, once the vault is
    resolved [Read] succeeds and sets [certificate_version] to the empty
    string. *)
Theorem Read_absent_version_is_empty
    (st : State W) (id : CustomCertificateId)
    (resp : CustomCertificatesGetOperationResponse) (model : CustomCertificate)
    (w1 w2 : W) (keyVaultId : string) (vaultId : KeyVaultId) :
  ParseCustomCertificateID (Id (resourceData st)) = Ok id →
  WebPubSub_CustomCertificatesGet clients id (remote st) = ((resp, None), w1) →
  Model resp = Some model →
  KeyVaultSecretVersion (Properties model) = None →
  KeyVault_KeyVaultIDFromBaseUrl clients (KeyVaultBaseUri (Properties model)) w1
    = ((Some keyVaultId, None), w2) →
  commonids.ParseKeyVaultID keyVaultId = Ok vaultId →
  KeyVaultBaseUri (Properties model) ≠ "" →
  ∃ st',
    Func (Read clients) st = (Return (), st')
    ∧ attrs (resourceData st') !! "certificate_version" = Some (TfString "").
Proof.
  intros Hid Hget Hmodel Hversion Hvault Hparse Huri. simpl.
  rewrite (Read_Func_Get st id resp None w1 Hid Hget). simpl.
  rewrite Hmodel.
  unfold readModel, mbind, M_bind, KeyVaultIDFromBaseUrl, remoteCall. simpl.
  rewrite Hvault. simpl. rewrite Hparse, Hversion.
  unfold keyVaultParse.NewNestedItemID.
  apply String.eqb_neq in Huri. rewrite Huri.
  eexists. split; [reflexivity|]. simpl.
  by rewrite lookup_insert_eq.
Qed.

(** C10: in the state a [Read] that found the object leaves, the
    [certificate_version] attribute and the version segment of the reference
    in [custom_certificate_id] are one value, taken from the remote version
    field.  When that field is set both are its value; when it is nil the
    attribute is empty and the reference has its three segments and no
    version segment. *)
Theorem Read_version_agrees
    (st st' : State W) (id : CustomCertificateId)
    (resp : CustomCertificatesGetOperationResponse) (model : CustomCertificate)
    (w : W) :
  ParseCustomCertificateID (Id (resourceData st)) = Ok id →
  WebPubSub_CustomCertificatesGet clients id (remote st) = ((resp, None), w) →
  Model resp = Some model →
  Func (Read clients) st = (Return (), st') →
  ∃ version,
    attrs (resourceData st') !! "certificate_version" = Some (TfString version)
    ∧ attrs (resourceData st') !! "custom_certificate_id"
      = Some (TfString
                (Join
                   ([TrimSuffixSlash (KeyVaultBaseUri (Properties model));
                     "certificates";
                     KeyVaultSecretName (Properties model)]
                    ++ (if String.eqb version "" then [] else [version]))%list
                   "/"))
    ∧ match KeyVaultSecretVersion (Properties model) with
      | Some v => version = v
      | None => version = ""
      end.
Proof.
  intros Hid Hget Hmodel. simpl.
  rewrite (Read_Func_Get st id resp None w Hid Hget). simpl.
  rewrite Hmodel.
  unfold readModel, mbind, M_bind, KeyVaultIDFromBaseUrl, remoteCall. simpl.
  destruct (KeyVault_KeyVaultIDFromBaseUrl _ _ _) as [[keyVaultIdRaw err] w2].
  simpl. destruct err; [discriminate|]. simpl.
  destruct keyVaultIdRaw as [keyVaultId|]; [|discriminate].
  destruct (commonids.ParseKeyVaultID keyVaultId); [|discriminate].
  unfold keyVaultParse.NewNestedItemID.
  destruct (String.eqb (KeyVaultBaseUri (Properties model)) ""); [discriminate|].
  intros [= <-].
  exists (utils.NormalizeNilableString (KeyVaultSecretVersion (Properties model))).
  cbn [resourceData attrs encode CertificateVersion CustomCertId].
  rewrite lookup_insert_eq, lookup_insert_ne, lookup_insert_eq by done.
  unfold keyVaultParse.ID.
  cbn [keyVaultParse.KeyVaultBaseUrl keyVaultParse.NestedItemType
       keyVaultParse.Name keyVaultParse.Version].
  destruct (KeyVaultSecretVersion (Properties model)) as [v|];
    cbn [utils.NormalizeNilableString].
  - repeat split. by destruct (String.eqb v "").
  - repeat split.
Qed.

End ReadProperties.

Lemma Read_not_found_marks_gone_witness :
  Func (Read stub.clients) stub.vanished =
    (Return (),
     {| resourceData := sdk.setId "" (resourceData stub.vanished);
        remote := stub.emptyWorld;
        calls := [CallCustomCertificatesGet stub.certId] |}).
Proof.
  apply (Read_not_found_marks_gone stub.clients stub.vanished stub.certId
           stub.notFound (errorString "unexpected status 404") stub.emptyWorld);
    vm_compute; reflexivity.
Defined.

Lemma Read_nil_model_fails_witness :
  Func (Read stub.emptyBodyClients) (stub.created stub.certificateRef) =
    (Fail (Errorf "retrieving %s: got nil model" [OpCustomCertificateId stub.certId]),
     afterCalls (stub.created stub.certificateRef)
       (remote (stub.created stub.certificateRef))
       [CallCustomCertificatesGet stub.certId]).
Proof.
  apply (Read_nil_model_fails stub.emptyBodyClients
           (stub.created stub.certificateRef) stub.certId stub.emptyBody
           (remote (stub.created stub.certificateRef)));
    vm_compute; reflexivity.
Defined.

Lemma Read_absent_version_is_empty_witness :
  ∃ st',
    Func (Read stub.clients) (stub.created stub.latestRef) = (Return (), st')
    ∧ attrs (resourceData st') !! "certificate_version" = Some (TfString "").
Proof.
  apply (Read_absent_version_is_empty stub.clients (stub.created stub.latestRef)
           stub.certId (stub.found (stub.storedObject None))
           (stub.storedObject None)
           (remote (stub.created stub.latestRef))
           (remote (stub.created stub.latestRef))
           stub.vaultId
           {| kv_SubscriptionId := "sub1"; kv_ResourceGroupName := "rg1";
              kv_VaultName := "vault1" |});
    try (vm_compute; reflexivity).
  discriminate.
Defined.

Lemma Read_version_agrees_witness :
  ∃ version,
    attrs (resourceData (Func (Read stub.clients) (stub.created stub.certificateRef)).2)
      !! "certificate_version" = Some (TfString version)
    ∧ version = "abc123".
Proof.
  destruct (Read_version_agrees stub.clients (stub.created stub.certificateRef)
              (Func (Read stub.clients) (stub.created stub.certificateRef)).2
              stub.certId (stub.found (stub.storedObject (Some "abc123")))
              (stub.storedObject (Some "abc123"))
              (remote (stub.created stub.certificateRef)))
    as (version & Hattr & _ & Hversion);
    try (vm_compute; reflexivity).
  exists version. split; [exact Hattr|exact Hversion].
Defined.

(** ** The example scenario *)

Section Scenario.

Import stub.

(** C1 as stated does not hold: with the reference
    [https://vault1.vault.azure.net/secrets/mycert/abc123] as input, the
    reference [Read] writes back is not the input string. *)
Lemma scenario_reference_is_not_the_input :
  ¬ ((createThenRead (initial secretRef)).1 = (Return (), Return ())
     ∧ attrs (resourceData (createThenRead (initial secretRef)).2)
         !! "custom_certificate_id" = Some (TfString secretRef)
     ∧ attrs (resourceData (createThenRead (initial secretRef)).2)
         !! "certificate_version" = Some (TfString "abc123")).
Proof.
  intros (_ & Href & _).
  vm_compute in Href. discriminate.
Qed.

(** C1, amended: in the example scenario [Create] stores the object with
    vault address, secret name "mycert" and version "abc123", and the
    following [Read] writes the reference
    [https://vault1.vault.azure.net/certificates/mycert/abc123]: the input
    with its item kind replaced by the fixed kind "certificates", so not
    the input string, and [certificate_version] "abc123".  When the input
    already has the kind "certificates", the reference written is the
    input string. *)
Theorem scenario_reference_has_kind_certificates :
  (createThenRead (initial secretRef)).1 = (Return (), Return ())
  ∧ certificates (remote (createThenRead (initial secretRef)).2)
      !! webpubsub.CustomCertificateId_ID certId
    = Some (storedObject (Some "abc123"))
  ∧ attrs (resourceData (createThenRead (initial secretRef)).2)
      !! "custom_certificate_id" = Some (TfString certificateRef)
  ∧ attrs (resourceData (createThenRead (initial secretRef)).2)
      !! "certificate_version" = Some (TfString "abc123")
  ∧ certificateRef ≠ secretRef
  ∧ (createThenRead (initial certificateRef)).1 = (Return (), Return ())
  ∧ attrs (resourceData (createThenRead (initial certificateRef)).2)
      !! "custom_certificate_id" = Some (TfString certificateRef)
  ∧ attrs (resourceData (createThenRead (initial certificateRef)).2)
      !! "certificate_version" = Some (TfString "abc123").
Proof.
  repeat split; try (vm_compute; reflexivity).
  discriminate.
Qed.

End Scenario.

(** ** Timeouts *)

Section Timeouts.

Context {W : Type} (clients : Clients W).

(** C8: [Create] and [Delete] declare a timeout of 30 minutes and [Read]
    one of 5 minutes, as durations in nanoseconds that fit an int64. *)
Theorem declared_timeouts :
  (Timeout (Create clients) = 30 * time.Minute
   ∧ Timeout (Delete clients) = 30 * time.Minute
   ∧ Timeout (Read clients) = 5 * time.Minute
   ∧ Timeout (Create clients) = 1800000000000
   ∧ Timeout (Read clients) = 300000000000
   ∧ Timeout (Create clients) ≤ time.maxDuration)%Z.
Proof. repeat split; try reflexivity. vm_compute. discriminate. Qed.

End Timeouts.

(** * Further properties of the resource functions *)

(** ** Delete *)

Section DeleteProperties.

Context {W : Type} (clients : Clients W).

Import webpubsub sdk.

(** X1: with a state key that parses, [Delete] makes one remote call, the
    delete of that identifier, with no existence check before it; it returns
    nil when the call succeeds and the wrapped error when it fails, and the
    resource data is left as it was. *)
Theorem Delete_single_call
    (st : State W) (id : CustomCertificateId)
    (resp : option http.Response) (err : option error) (w : W) :
  ParseCustomCertificateID (Id (resourceData st)) = Ok id →
  WebPubSub_CustomCertificatesDelete clients id (remote st) = ((resp, err), w) →
  Func (Delete clients) st =
    (match err with
     | Some _ =>
         Fail (Errorf "deleting %s: %+v" [OpCustomCertificateId id; OpError err])
     | None => Return ()
     end,
     afterCalls st w [CallCustomCertificatesDelete id]).
Proof.
  intros Hid Hdel. simpl.
  unfold Delete_Func, mbind, M_bind, getResourceData.
  rewrite Hid.
  unfold CustomCertificatesDelete, remoteCall. rewrite Hdel.
  by destruct err.
Qed.

(** X2: with a state key that does not parse, [Read] and [Delete] return
    the parse error as it is, make no remote call and change nothing. *)
Theorem malformed_key_stops_Read_and_Delete (st : State W) (e : error) :
  ParseCustomCertificateID (Id (resourceData st)) = Err e →
  Func (Read clients) st = (Fail e, st)
  ∧ Func (Delete clients) st = (Fail e, st).
Proof.
  intros Hid. simpl.
  unfold Read_Func, Delete_Func, mbind, M_bind, getResourceData.
  by rewrite Hid.
Qed.

End DeleteProperties.

Lemma Delete_single_call_witness :
  Func (Delete faulty.deleteFails) (stub.created stub.certificateRef) =
    (Fail (Errorf "deleting %s: %+v"
             [OpCustomCertificateId stub.certId; OpError (Some faulty.refused)]),
     afterCalls (stub.created stub.certificateRef)
       (remote (stub.created stub.certificateRef))
       [CallCustomCertificatesDelete stub.certId]).
Proof.
  apply (Delete_single_call faulty.deleteFails (stub.created stub.certificateRef)
           stub.certId (stub.status 500) (Some faulty.refused)
           (remote (stub.created stub.certificateRef)));
    vm_compute; reflexivity.
Defined.

Lemma malformed_key_stops_Read_and_Delete_witness :
  ∃ e,
    Func (Read stub.clients) faulty.malformedKey = (Fail e, faulty.malformedKey)
    ∧ Func (Delete stub.clients) faulty.malformedKey
      = (Fail e, faulty.malformedKey).
Proof.
  exists (Errorf "parsing %q" [OpString "cert1"]).
  apply (malformed_key_stops_Read_and_Delete stub.clients faulty.malformedKey).
  vm_compute. reflexivity.
Defined.

(** ** Create: inputs, submission and remote calls *)

Section CreatePaths.

Context {W : Type} (clients : Clients W).

Import webpubsub sdk.

(** X3: when the configuration does not decode, or the parent identifier or
    the secret reference does not parse, [Create] fails with the matching
    wrapped error before any remote call and leaves the state as it was. *)
Theorem Create_rejects_inputs_before_any_call (st : State W) :
  derived (resourceData st) = None →
  ∃ e,
    Func (Create clients) st = (Fail e, st)
    ∧ ((∃ err,
          Decode (resourceData st) = Err err
          ∧ e = Errorf "decoding: %+v" [OpError (Some err)])
       ∨ (∃ m err,
            Decode (resourceData st) = Ok m
            ∧ ParseWebPubSubID (WebPubsubId m) = Err err
            ∧ e = Errorf "parsing web pubsub service id error: %+v"
                    [OpError (Some err)])
       ∨ (∃ m err,
            Decode (resourceData st) = Ok m
            ∧ keyVaultParse.ParseOptionallyVersionedNestedItemID (CustomCertId m)
              = Err err
            ∧ e = Errorf "parsing custom certificate id error: %+v"
                    [OpError (Some err)])).
Proof.
  unfold derived. simpl.
  unfold Create_Func, mbind, M_bind, getResourceData.
  destruct (Decode (resourceData st)) as [m|err] eqn:Hdec.
  - pose proof (Decode_inv _ _ Hdec) as (_ & Hw & Hc & _).
    rewrite (decodeString_GetString _ _ _ Hw).
    destruct (ParseWebPubSubID (WebPubsubId m)) as [w|err] eqn:Hparent.
    + rewrite (decodeString_GetString _ _ _ Hc).
      destruct (keyVaultParse.ParseOptionallyVersionedNestedItemID (CustomCertId m))
        as [kv|err] eqn:Href; [discriminate|].
      intros _. eexists. split; [reflexivity|].
      right. right. by exists m, err.
    + intros _. eexists. split; [reflexivity|].
      right. left. by exists m, err.
  - intros _. eexists. split; [reflexivity|].
    left. by exists err.
Qed.

(** X4: when the existence check answers not-found and the submission
    succeeds, [Create] returns nil after exactly two remote calls, the check
    and the submission, and the state key is the formatted identifier. *)
Theorem Create_success
    (st : State W) (id : CustomCertificateId)
    (keyVaultCertificateId : keyVaultParse.NestedItemId)
    (existing : CustomCertificatesGetOperationResponse) (err : option error)
    (w1 w2 : W) :
  derived (resourceData st) = Some (id, keyVaultCertificateId) →
  WebPubSub_CustomCertificatesGet clients id (remote st) = ((existing, err), w1) →
  response.WasNotFound (HttpResponse existing) = true →
  WebPubSub_CustomCertificatesCreateOrUpdateThenPoll clients id
    (customCertObjOf keyVaultCertificateId) w1 = (None, w2) →
  Func (Create clients) st =
    (Return (),
     {| resourceData := setId (CustomCertificateId_ID id) (resourceData st);
        remote := w2;
        calls :=
          (calls st ++
           [CallCustomCertificatesGet id;
            CallCustomCertificatesCreateOrUpdateThenPoll id
              (customCertObjOf keyVaultCertificateId)])%list |}).
Proof.
  intros Hd Hget Hnf Hsubmit.
  pose proof (Create_Func_cases clients st) as Hrun.
  rewrite Hd in Hrun. simpl. rewrite Hrun.
  unfold createFrom, mbind, M_bind, CustomCertificatesGet,
    CustomCertificatesCreateOrUpdateThenPoll, remoteCall.
  rewrite Hget. simpl. rewrite Hnf, andb_false_r. simpl.
  rewrite Hsubmit. simpl.
  unfold SetID, modifyResourceData. simpl.
  by rewrite <- app_assoc.
Qed.

(** X5: when the submission fails, [Create] returns the wrapped creation
    error and does not set the state key: the resource data is as it was. *)
Theorem Create_submission_failure
    (st : State W) (id : CustomCertificateId)
    (keyVaultCertificateId : keyVaultParse.NestedItemId)
    (existing : CustomCertificatesGetOperationResponse) (err : option error)
    (e : error) (w1 w2 : W) :
  derived (resourceData st) = Some (id, keyVaultCertificateId) →
  WebPubSub_CustomCertificatesGet clients id (remote st) = ((existing, err), w1) →
  response.WasNotFound (HttpResponse existing) = true →
  WebPubSub_CustomCertificatesCreateOrUpdateThenPoll clients id
    (customCertObjOf keyVaultCertificateId) w1 = (Some e, w2) →
  Func (Create clients) st =
    (Fail (Errorf "creating web pubsub custom certificate: %s: %+v"
             [OpCustomCertificateId id; OpError (Some e)]),
     afterCalls st w2
       [CallCustomCertificatesGet id;
        CallCustomCertificatesCreateOrUpdateThenPoll id
          (customCertObjOf keyVaultCertificateId)]).
Proof.
  intros Hd Hget Hnf Hsubmit.
  pose proof (Create_Func_cases clients st) as Hrun.
  rewrite Hd in Hrun. simpl. rewrite Hrun.
  unfold createFrom, mbind, M_bind, CustomCertificatesGet,
    CustomCertificatesCreateOrUpdateThenPoll, remoteCall.
  rewrite Hget. simpl. rewrite Hnf, andb_false_r. simpl.
  rewrite Hsubmit. simpl.
  unfold afterCalls, throw. simpl.
  by rewrite <- app_assoc.
Qed.

(** X6: whatever the remote answers, the remote calls of one [Create] are
    none, or the existence check alone, or the check followed by one
    submission for the same identifier; [Create] never deletes and never
    asks the vault resolver. *)
Theorem Create_remote_calls (st : State W) :
  ∃ cs,
    calls (Func (Create clients) st).2 = (calls st ++ cs)%list
    ∧ (cs = []
       ∨ ∃ id,
           cs = [CallCustomCertificatesGet id]
           ∨ ∃ input,
               cs = [CallCustomCertificatesGet id;
                     CallCustomCertificatesCreateOrUpdateThenPoll id input]).
Proof.
  pose proof (Create_Func_cases clients st) as Hcases. simpl.
  destruct (derived (resourceData st)) as [[id kv]|].
  - rewrite Hcases.
    unfold createFrom, mbind, M_bind, CustomCertificatesGet,
      CustomCertificatesCreateOrUpdateThenPoll, remoteCall.
    destruct (WebPubSub_CustomCertificatesGet clients id (remote st))
      as [[existing err] w1].
    simpl.
    destruct (notNil err && negb (response.WasNotFound (HttpResponse existing))).
    { exists [CallCustomCertificatesGet id]. split; [done|]. right. eauto. }
    destruct (negb (response.WasNotFound (HttpResponse existing))).
    { exists [CallCustomCertificatesGet id]. split; [done|]. right. eauto. }
    simpl.
    destruct (WebPubSub_CustomCertificatesCreateOrUpdateThenPoll _ _ _ _)
      as [[e|] w2]; simpl;
      (eexists; split; [by rewrite <- app_assoc|]; right; eauto).
  - destruct Hcases as [e ->]. exists []. split; [by rewrite app_nil_r|by left].
Qed.

End CreatePaths.

Lemma Create_rejects_inputs_before_any_call_witness :
  ∃ e,
    Func (Create stub.clients) faulty.malformedParent
    = (Fail e, faulty.malformedParent).
Proof.
  destruct (Create_rejects_inputs_before_any_call stub.clients
              faulty.malformedParent eq_refl) as (e & Hrun & _).
  exists e. exact Hrun.
Defined.

Lemma Create_success_witness :
  Func (Create stub.clients) (stub.initial stub.certificateRef) =
    (Return (),
     {| resourceData :=
          sdk.setId (webpubsub.CustomCertificateId_ID stub.certId)
            (stub.config stub.certificateRef);
        remote := remote (stub.created stub.certificateRef);
        calls :=
          [CallCustomCertificatesGet stub.certId;
           CallCustomCertificatesCreateOrUpdateThenPoll stub.certId
             (customCertObjOf (stub.parsedRef "abc123"))] |}).
Proof.
  apply (Create_success stub.clients (stub.initial stub.certificateRef)
           stub.certId (stub.parsedRef "abc123") stub.notFound
           (Some (errorString "unexpected status 404")) stub.emptyWorld
           (remote (stub.created stub.certificateRef)));
    vm_compute; reflexivity.
Defined.

Lemma Create_submission_failure_witness :
  Func (Create faulty.submitFails) (stub.initial stub.certificateRef) =
    (Fail (Errorf "creating web pubsub custom certificate: %s: %+v"
             [OpCustomCertificateId stub.certId; OpError (Some faulty.refused)]),
     afterCalls (stub.initial stub.certificateRef) stub.emptyWorld
       [CallCustomCertificatesGet stub.certId;
        CallCustomCertificatesCreateOrUpdateThenPoll stub.certId
          (customCertObjOf (stub.parsedRef "abc123"))]).
Proof.
  apply (Create_submission_failure faulty.submitFails
           (stub.initial stub.certificateRef) stub.certId
           (stub.parsedRef "abc123") stub.notFound
           (Some (errorString "unexpected status 404")) faulty.refused
           stub.emptyWorld stub.emptyWorld);
    vm_compute; reflexivity.
Defined.

(** ** Read: the vault resolution and the remote calls *)

Section ReadPaths.

Context {W : Type} (clients : Clients W).

Import GoStrings resourceids webpubsub sdk.

(** [Read] once the object is in hand. *)
Lemma Read_Func_found (st : State W) id resp model w :
  ParseCustomCertificateID (Id (resourceData st)) = Ok id →
  WebPubSub_CustomCertificatesGet clients id (remote st) = ((resp, None), w) →
  Model resp = Some model →
  Read_Func clients st
  = readModel clients id model (afterCalls st w [CallCustomCertificatesGet id]).
Proof.
  intros Hid Hget Hmodel.
  rewrite (Read_Func_Get clients st id resp None w Hid Hget). simpl.
  by rewrite Hmodel.
Qed.

(** X7: when the vault resolver hands back neither an identifier nor an
    error, [Read] dereferences the nil identifier and panics; it has made
    its two queries and written nothing. *)
Theorem Read_nil_vault_identifier_panics
    (st : State W) (id : CustomCertificateId)
    (resp : CustomCertificatesGetOperationResponse) (model : CustomCertificate)
    (w1 w2 : W) :
  ParseCustomCertificateID (Id (resourceData st)) = Ok id →
  WebPubSub_CustomCertificatesGet clients id (remote st) = ((resp, None), w1) →
  Model resp = Some model →
  KeyVault_KeyVaultIDFromBaseUrl clients (KeyVaultBaseUri (Properties model)) w1
    = ((None, None), w2) →
  Func (Read clients) st =
    (Panic,
     afterCalls st w2
       [CallCustomCertificatesGet id;
        CallKeyVaultIDFromBaseUrl (KeyVaultBaseUri (Properties model))]).
Proof.
  intros Hid Hget Hmodel Hvault. simpl.
  rewrite (Read_Func_found st id resp model w1 Hid Hget Hmodel).
  unfold readModel, mbind, M_bind, KeyVaultIDFromBaseUrl, remoteCall. simpl.
  rewrite Hvault. simpl.
  unfold panic, afterCalls. simpl. by rewrite <- app_assoc.
Qed.

(** X8: when the vault cannot be resolved, [Read] fails and writes nothing:
    with the wrapped resolver error if the resolver failed, and with the
    wrapped parse error if its answer is no vault identifier. *)
Theorem Read_vault_resolution_failure
    (st : State W) (id : CustomCertificateId)
    (resp : CustomCertificatesGetOperationResponse) (model : CustomCertificate)
    (keyVaultIdRaw : option string) (err : option error) (w1 w2 : W) :
  ParseCustomCertificateID (Id (resourceData st)) = Ok id →
  WebPubSub_CustomCertificatesGet clients id (remote st) = ((resp, None), w1) →
  Model resp = Some model →
  KeyVault_KeyVaultIDFromBaseUrl clients (KeyVaultBaseUri (Properties model)) w1
    = ((keyVaultIdRaw, err), w2) →
  let st' :=
    afterCalls st w2
      [CallCustomCertificatesGet id;
       CallKeyVaultIDFromBaseUrl (KeyVaultBaseUri (Properties model))] in
  (∀ e, err = Some e →
        Func (Read clients) st =
          (Fail (Errorf "getting key vault base uri from %s: %+v"
                   [OpCustomCertificateId id; OpError (Some e)]), st'))
  ∧ (∀ keyVaultId e,
       err = None → keyVaultIdRaw = Some keyVaultId →
       commonids.ParseKeyVaultID keyVaultId = Err e →
       Func (Read clients) st =
         (Fail (Errorf "parsing key vault %s: %+v"
                  [OpKeyVaultIdPtr None; OpError (Some e)]), st')).
Proof.
  intros Hid Hget Hmodel Hvault st'. simpl.
  rewrite (Read_Func_found st id resp model w1 Hid Hget Hmodel).
  unfold readModel, mbind, M_bind, KeyVaultIDFromBaseUrl, remoteCall. simpl.
  rewrite Hvault. simpl.
  assert (Hst :
    {| resourceData := resourceData st; remote := w2;
       calls := ((calls st ++ [CallCustomCertificatesGet id])
                 ++ [CallKeyVaultIDFromBaseUrl (KeyVaultBaseUri (Properties model))])%list |}
    = st').
  { unfold st', afterCalls. by rewrite <- app_assoc. }
  split.
  - intros e ->. simpl. unfold throw. by rewrite Hst.
  - intros keyVaultId e -> -> Hparse. simpl. rewrite Hparse.
    unfold throw. by rewrite Hst.
Qed.

(** X9: the remote calls of one [Read] are none, or the Get alone, or the
    Get followed by one vault resolution: [Read] only queries, it never
    submits or deletes. *)
Theorem Read_only_queries (st : State W) :
  ∃ cs,
    calls (Func (Read clients) st).2 = (calls st ++ cs)%list
    ∧ Forall (λ c, isQuery c = true) cs
    ∧ (cs = []
       ∨ ∃ id,
           cs = [CallCustomCertificatesGet id]
           ∨ ∃ keyVaultBaseUrl,
               cs = [CallCustomCertificatesGet id;
                     CallKeyVaultIDFromBaseUrl keyVaultBaseUrl]).
Proof.
  simpl.
  destruct (ParseCustomCertificateID (Id (resourceData st))) as [id|e] eqn:Hid.
  - destruct (WebPubSub_CustomCertificatesGet clients id (remote st))
      as [[resp err] w1] eqn:Hget.
    rewrite (Read_Func_Get clients st id resp err w1 Hid Hget).
    assert (Hone :
      ∃ cs, (calls st ++ [CallCustomCertificatesGet id])%list = (calls st ++ cs)%list
            ∧ Forall (λ c, isQuery c = true) cs
            ∧ (cs = []
               ∨ ∃ id0,
                   cs = [CallCustomCertificatesGet id0]
                   ∨ ∃ keyVaultBaseUrl,
                       cs = [CallCustomCertificatesGet id0;
                             CallKeyVaultIDFromBaseUrl keyVaultBaseUrl])).
    { exists [CallCustomCertificatesGet id].
      split; [done|]. split; [by repeat constructor|]. right. eauto. }
    destruct err as [e|]; simpl.
    { by destruct (response.WasNotFound (HttpResponse resp)). }
    destruct (Model resp) as [model|]; [|done].
    unfold readModel, mbind, M_bind, KeyVaultIDFromBaseUrl, remoteCall. simpl.
    destruct (KeyVault_KeyVaultIDFromBaseUrl _ _ _) as [[raw err] w2].
    exists [CallCustomCertificatesGet id;
            CallKeyVaultIDFromBaseUrl (KeyVaultBaseUri (Properties model))].
    split; [|split; [by repeat constructor|right; eauto]].
    simpl. destruct err; simpl; [by rewrite <- app_assoc|].
    destruct raw as [keyVaultId|]; simpl; [|by rewrite <- app_assoc].
    destruct (commonids.ParseKeyVaultID keyVaultId); simpl;
      [|by rewrite <- app_assoc].
    destruct (keyVaultParse.NewNestedItemID _ _ _ _); simpl;
      by rewrite <- app_assoc.
  - unfold Read_Func, mbind, M_bind, getResourceData. rewrite Hid.
    exists []. split; [by rewrite app_nil_r|]. split; [constructor|by left].
Qed.

End ReadPaths.

Lemma Read_nil_vault_identifier_panics_witness :
  Func (Read stub.clients) faulty.unknownVault =
    (Panic,
     afterCalls faulty.unknownVault (remote faulty.unknownVault)
       [CallCustomCertificatesGet stub.certId;
        CallKeyVaultIDFromBaseUrl "https://vault1.vault.azure.net/"]).
Proof.
  apply (Read_nil_vault_identifier_panics stub.clients faulty.unknownVault
           stub.certId (stub.found (stub.storedObject (Some "abc123")))
           (stub.storedObject (Some "abc123"))
           (remote faulty.unknownVault) (remote faulty.unknownVault));
    vm_compute; reflexivity.
Defined.

Lemma Read_vault_resolution_failure_witness :
  Func (Read faulty.resolverFails) (stub.created stub.certificateRef) =
    (Fail (Errorf "getting key vault base uri from %s: %+v"
             [OpCustomCertificateId stub.certId; OpError (Some faulty.refused)]),
     afterCalls (stub.created stub.certificateRef)
       (remote (stub.created stub.certificateRef))
       [CallCustomCertificatesGet stub.certId;
        CallKeyVaultIDFromBaseUrl "https://vault1.vault.azure.net/"])
  ∧ ∃ e,
      Func (Read stub.clients) faulty.malformedVault =
        (Fail (Errorf "parsing key vault %s: %+v"
                 [OpKeyVaultIdPtr None; OpError (Some e)]),
         afterCalls faulty.malformedVault (remote faulty.malformedVault)
           [CallCustomCertificatesGet stub.certId;
            CallKeyVaultIDFromBaseUrl "https://vault1.vault.azure.net/"]).
Proof.
  split.
  - exact (proj1 (Read_vault_resolution_failure faulty.resolverFails
                    (stub.created stub.certificateRef) stub.certId
                    (stub.found (stub.storedObject (Some "abc123")))
                    (stub.storedObject (Some "abc123")) None
                    (Some faulty.refused)
                    (remote (stub.created stub.certificateRef))
                    (remote (stub.created stub.certificateRef))
                    eq_refl eq_refl eq_refl eq_refl)
             faulty.refused eq_refl).
  - exists (Errorf "parsing %q" [OpString "vault1"]).
    exact (proj2 (Read_vault_resolution_failure stub.clients
                    faulty.malformedVault stub.certId
                    (stub.found (stub.storedObject (Some "abc123")))
                    (stub.storedObject (Some "abc123")) (Some "vault1") None
                    (remote faulty.malformedVault) (remote faulty.malformedVault)
                    eq_refl eq_refl eq_refl eq_refl)
             "vault1" (Errorf "parsing %q" [OpString "vault1"])
             eq_refl eq_refl eq_refl).
Defined.

(** ** What the resource functions leave in the state *)

Section StateProperties.

Context {W : Type} (clients : Clients W).

Import GoStrings resourceids webpubsub sdk.

Lemma append_assoc (a b c : string) : (a ++ b) ++ c = a ++ (b ++ c).
Proof.
  induction a as [|x a IH]; [done|].
  change (String x ((a ++ b) ++ c) = String x (a ++ b ++ c)).
  by rewrite IH.
Qed.

Lemma Join_app (l1 l2 : list string) (sep : string) :
  l1 ≠ [] → l2 ≠ [] →
  Join (l1 ++ l2)%list sep = Join l1 sep ++ sep ++ Join l2 sep.
Proof.
  intros Hl1 Hl2.
  induction l1 as [|a [|b l1] IH]; [done| |].
  - destruct l2; [done|reflexivity].
  - change (Join ((a :: b :: l1) ++ l2)%list sep)
      with (a ++ sep ++ Join ((b :: l1) ++ l2)%list sep).
    rewrite IH by done.
    change (Join (a :: b :: l1) sep) with (a ++ sep ++ Join (b :: l1) sep).
    by rewrite !append_assoc.
Qed.

Lemma ParseCustomCertificateID_inv input id :
  ParseCustomCertificateID input = Ok id →
  Parse CustomCertificateSegments input
  = Some [SubscriptionId id; ResourceGroupName id; WebPubSubName id;
          CustomCertificateName id].
Proof.
  unfold ParseCustomCertificateID.
  destruct (Parse CustomCertificateSegments input)
    as [[|a [|b [|c [|d [|? ?]]]]]|]; try discriminate.
  by intros [= <-].
Qed.

(** A resource identifier is its parent's identifier followed by the
    [customCertificates] segment and the name. *)
Lemma CustomCertificateId_ID_parent (id : CustomCertificateId) :
  CustomCertificateId_ID id
  = WebPubSubId_ID
      (NewWebPubSubID (SubscriptionId id) (ResourceGroupName id) (WebPubSubName id))
    ++ "/customCertificates/" ++ CustomCertificateName id.
Proof.
  unfold CustomCertificateId_ID, WebPubSubId_ID, Format.
  change (formatSegments CustomCertificateSegments
            [SubscriptionId id; ResourceGroupName id; WebPubSubName id;
             CustomCertificateName id])
    with (formatSegments WebPubSubSegments
            [SubscriptionId id; ResourceGroupName id; WebPubSubName id]
          ++ ["customCertificates"; CustomCertificateName id])%list.
  rewrite Join_app by done.
  cbn [NewWebPubSubID wps_SubscriptionId wps_ResourceGroupName wps_WebPubSubName].
  generalize (Join (formatSegments WebPubSubSegments
                      [SubscriptionId id; ResourceGroupName id; WebPubSubName id])
                "/").
  intros parent. rewrite append_assoc. reflexivity.
Qed.

Lemma derived_inv d id keyVaultCertificateId :
  derived d = Some (id, keyVaultCertificateId) →
  ∃ m webPubsubId,
    Decode d = Ok m
    ∧ ParseWebPubSubID (WebPubsubId m) = Ok webPubsubId
    ∧ keyVaultParse.ParseOptionallyVersionedNestedItemID (CustomCertId m)
      = Ok keyVaultCertificateId
    ∧ id = NewCustomCertificateID (wps_SubscriptionId webPubsubId)
             (wps_ResourceGroupName webPubsubId) (wps_WebPubSubName webPubsubId)
             (Name m).
Proof.
  unfold derived.
  destruct (Decode d) as [m|]; [|discriminate].
  destruct (ParseWebPubSubID (WebPubsubId m)) as [w|] eqn:Hw; [|discriminate].
  destruct (keyVaultParse.ParseOptionallyVersionedNestedItemID (CustomCertId m))
    as [kv|] eqn:Hkv; [|discriminate].
  intros [= <- <-]. by exists m, w.
Qed.

(** The derivation reads the attributes only, not the state key. *)
Lemma derived_setId key d : derived (setId key d) = derived d.
Proof. reflexivity. Qed.

Lemma Create_Func_success_inv (st st' : State W) :
  Create_Func clients st = (Return (), st') →
  ∃ id keyVaultCertificateId,
    derived (resourceData st) = Some (id, keyVaultCertificateId)
    ∧ resourceData st' = setId (CustomCertificateId_ID id) (resourceData st).
Proof.
  intros Hrun.
  pose proof (Create_Func_cases clients st) as Hcases.
  destruct (derived (resourceData st)) as [[id kv]|].
  - exists id, kv. split; [done|].
    rewrite Hcases in Hrun.
    unfold createFrom, mbind, M_bind, CustomCertificatesGet,
      CustomCertificatesCreateOrUpdateThenPoll, remoteCall in Hrun.
    destruct (WebPubSub_CustomCertificatesGet clients id (remote st))
      as [[existing err] w].
    simpl in Hrun.
    destruct (notNil err && negb (response.WasNotFound (HttpResponse existing)));
      [discriminate|].
    destruct (negb (response.WasNotFound (HttpResponse existing)));
      [discriminate|].
    simpl in Hrun.
    destruct (WebPubSub_CustomCertificatesCreateOrUpdateThenPoll _ _ _ _)
      as [[e|] w']; [discriminate|].
    simpl in Hrun. by injection Hrun as <-.
  - destruct Hcases as [e He]. rewrite He in Hrun. discriminate.
Qed.

(** The identifier derived from a parent that parses and a name of one
    segment parses back, and the parent rebuilt from it parses to the
    configured parent. *)
Lemma derived_identifier_parses parent name webPubsubId :
  ParseWebPubSubID parent = Ok webPubsubId →
  validSegment name = true →
  let id :=
    NewCustomCertificateID (wps_SubscriptionId webPubsubId)
      (wps_ResourceGroupName webPubsubId) (wps_WebPubSubName webPubsubId) name in
  ParseCustomCertificateID (CustomCertificateId_ID id) = Ok id
  ∧ WebPubSubId_ID
      (NewWebPubSubID (SubscriptionId id) (ResourceGroupName id) (WebPubSubName id))
    = WebPubSubId_ID webPubsubId
  ∧ ParseWebPubSubID (WebPubSubId_ID webPubsubId) = Ok webPubsubId.
Proof.
  intros Hparent Hname id.
  apply ParseWebPubSubID_inv, Parse_valid in Hparent as (Hvalid & _).
  inversion Hvalid as [|? ? H1 Hv1]; subst.
  inversion Hv1 as [|? ? H2 Hv2]; subst.
  inversion Hv2 as [|? ? H3 Hv3]; subst.
  repeat split.
  - unfold ParseCustomCertificateID, CustomCertificateId_ID.
    rewrite Parse_Format;
      [done|done|apply CustomCertificateSegments_slashFree| |done].
    repeat constructor; done.
  - unfold ParseWebPubSubID, WebPubSubId_ID.
    rewrite Parse_Format; [|done|apply WebPubSubSegments_slashFree| |done].
    + by destruct webPubsubId.
    + repeat constructor; done.
Qed.

(** The identifier a state key parsed to formats to a string that parses
    to it again, and so does its parent. *)
Lemma parsed_identifier_formats key id :
  ParseCustomCertificateID key = Ok id →
  ParseCustomCertificateID (CustomCertificateId_ID id) = Ok id
  ∧ ParseWebPubSubID
      (WebPubSubId_ID
         (NewWebPubSubID (SubscriptionId id) (ResourceGroupName id)
            (WebPubSubName id)))
    = Ok (NewWebPubSubID (SubscriptionId id) (ResourceGroupName id)
            (WebPubSubName id)).
Proof.
  intros Hkey.
  apply ParseCustomCertificateID_inv, Parse_valid in Hkey as (Hvalid & _).
  inversion Hvalid as [|? ? H1 Hv1]; subst.
  inversion Hv1 as [|? ? H2 Hv2]; subst.
  inversion Hv2 as [|? ? H3 Hv3]; subst.
  inversion Hv3 as [|? ? H4 Hv4]; subst.
  split.
  - unfold ParseCustomCertificateID, CustomCertificateId_ID.
    rewrite Parse_Format;
      [|done|apply CustomCertificateSegments_slashFree| |done].
    + by destruct id.
    + repeat constructor; done.
  - unfold ParseWebPubSubID, WebPubSubId_ID.
    rewrite Parse_Format; [done|done|apply WebPubSubSegments_slashFree| |done].
    repeat constructor; done.
Qed.

End StateProperties.

Section StateTheorems.

Context {W : Type} (clients : Clients W).

Import GoStrings resourceids webpubsub sdk.

(** What a [Read] that found the object and succeeded leaves. *)
Lemma Read_Func_found_success (st st' : State W) id resp model w :
  ParseCustomCertificateID (Id (resourceData st)) = Ok id →
  WebPubSub_CustomCertificatesGet clients id (remote st) = ((resp, None), w) →
  Model resp = Some model →
  Read_Func clients st = (Return (), st') →
  ∃ certId version,
    resourceData st' =
      encode {| Name := CustomCertificateName id;
                WebPubsubId :=
                  WebPubSubId_ID
                    (NewWebPubSubID (SubscriptionId id) (ResourceGroupName id)
                       (WebPubSubName id));
                CustomCertId := certId;
                CertificateVersion := version |}
        (resourceData st).
Proof.
  intros Hid Hget Hmodel.
  rewrite (Read_Func_found clients st id resp model w Hid Hget Hmodel).
  unfold readModel, mbind, M_bind, KeyVaultIDFromBaseUrl, remoteCall. simpl.
  destruct (KeyVault_KeyVaultIDFromBaseUrl _ _ _) as [[raw err] w2].
  simpl. destruct err; [discriminate|]. simpl.
  destruct raw as [keyVaultId|]; [|discriminate].
  destruct (commonids.ParseKeyVaultID keyVaultId); [|discriminate].
  destruct (keyVaultParse.NewNestedItemID _ _ _ _) as [item|]; [|discriminate].
  intros [= <-]. simpl. eauto.
Qed.

(** X10: an operation that does not return nil writes nothing: after a
    failed or panicking [Create] or [Read] the resource data is as it was,
    and [Delete] never changes it at all. *)
Theorem failed_operations_write_nothing (st : State W) :
  ((Func (Create clients) st).1 ≠ Return () →
   resourceData (Func (Create clients) st).2 = resourceData st)
  ∧ ((Func (Read clients) st).1 ≠ Return () →
     resourceData (Func (Read clients) st).2 = resourceData st)
  ∧ resourceData (Func (Delete clients) st).2 = resourceData st.
Proof.
  simpl. repeat split.
  - pose proof (Create_Func_cases clients st) as Hcases.
    destruct (derived (resourceData st)) as [[id kv]|].
    + rewrite Hcases.
      unfold createFrom, mbind, M_bind, CustomCertificatesGet,
        CustomCertificatesCreateOrUpdateThenPoll, remoteCall.
      destruct (WebPubSub_CustomCertificatesGet clients id (remote st))
        as [[existing err] w1].
      simpl.
      destruct (notNil err && negb (response.WasNotFound (HttpResponse existing)));
        [done|].
      destruct (negb (response.WasNotFound (HttpResponse existing))); [done|].
      simpl.
      destruct (WebPubSub_CustomCertificatesCreateOrUpdateThenPoll _ _ _ _)
        as [[e|] w2]; simpl; done.
    + by destruct Hcases as [e ->].
  - destruct (ParseCustomCertificateID (Id (resourceData st))) as [id|e] eqn:Hid.
    + destruct (WebPubSub_CustomCertificatesGet clients id (remote st))
        as [[resp err] w1] eqn:Hget.
      rewrite (Read_Func_Get clients st id resp err w1 Hid Hget).
      destruct err as [e|]; simpl.
      { by destruct (response.WasNotFound (HttpResponse resp)). }
      destruct (Model resp) as [model|]; [|done].
      unfold readModel, mbind, M_bind, KeyVaultIDFromBaseUrl, remoteCall. simpl.
      destruct (KeyVault_KeyVaultIDFromBaseUrl _ _ _) as [[raw err] w2].
      simpl. destruct err; [done|]. simpl.
      destruct raw as [keyVaultId|]; [|done].
      destruct (commonids.ParseKeyVaultID keyVaultId); [|done].
      destruct (keyVaultParse.NewNestedItemID _ _ _ _); done.
    + unfold Read_Func, mbind, M_bind, getResourceData. by rewrite Hid.
  - unfold Delete_Func, mbind, M_bind, getResourceData.
    destruct (ParseCustomCertificateID (Id (resourceData st))) as [id|e]; [|done].
    unfold CustomCertificatesDelete, remoteCall.
    destruct (WebPubSub_CustomCertificatesDelete clients id (remote st))
      as [[resp err] w1].
    by destruct err.
Qed.

(** X11: a [Read] that found the object and succeeded keeps the state key,
    and what it wrote names the same object as the key: the [web_pubsub_id]
    it wrote followed by [/customCertificates/] and the [name] it wrote
    parses to the identifier the key parsed to, and that [web_pubsub_id]
    parses to the key's subscription, resource group and service name. *)
Theorem Read_success_key_and_parent
    (st st' : State W) (id : CustomCertificateId)
    (resp : CustomCertificatesGetOperationResponse) (model : CustomCertificate)
    (w : W) :
  ParseCustomCertificateID (Id (resourceData st)) = Ok id →
  WebPubSub_CustomCertificatesGet clients id (remote st) = ((resp, None), w) →
  Model resp = Some model →
  Func (Read clients) st = (Return (), st') →
  ∃ parent name,
    attrs (resourceData st') !! "web_pubsub_id" = Some (TfString parent)
    ∧ attrs (resourceData st') !! "name" = Some (TfString name)
    ∧ Id (resourceData st') = Id (resourceData st)
    ∧ ParseCustomCertificateID (parent ++ "/customCertificates/" ++ name) = Ok id
    ∧ ParseWebPubSubID parent
      = Ok (NewWebPubSubID (SubscriptionId id) (ResourceGroupName id)
              (WebPubSubName id)).
Proof.
  intros Hid Hget Hmodel Hrun.
  destruct (Read_Func_found_success st st' id resp model w Hid Hget Hmodel Hrun)
    as (certId & version & ->).
  destruct (parsed_identifier_formats _ _ Hid) as [Hcanonical Hparent].
  eexists _, _. simpl.
  rewrite lookup_insert_ne, lookup_insert_ne, lookup_insert_eq by done.
  rewrite lookup_insert_ne, lookup_insert_ne, lookup_insert_ne, lookup_insert_eq
    by done.
  repeat split.
  - by rewrite <- CustomCertificateId_ID_parent.
  - exact Hparent.
Qed.

(** X12: a second [Create] of the same configuration, once the first
    succeeded and the remote reports the object, fails with the
    import-required error for the same identifier and makes no remote call
    but the existence check. *)
Theorem Create_twice_requires_import
    (st st1 : State W) (id : CustomCertificateId)
    (keyVaultCertificateId : keyVaultParse.NestedItemId)
    (existing : CustomCertificatesGetOperationResponse) (w : W) :
  derived (resourceData st) = Some (id, keyVaultCertificateId) →
  Func (Create clients) st = (Return (), st1) →
  WebPubSub_CustomCertificatesGet clients id (remote st1) = ((existing, None), w) →
  response.WasNotFound (HttpResponse existing) = false →
  Func (Create clients) st1 =
    (Fail (tf.ImportAsExistsError ResourceType (Id (resourceData st1))),
     afterCalls st1 w [CallCustomCertificatesGet id]).
Proof.
  intros Hd Hfirst Hget Hnf. simpl in *.
  destruct (Create_Func_success_inv clients st st1 Hfirst)
    as (id' & kv' & Hd' & Hrd).
  rewrite Hd in Hd'. injection Hd' as <- <-.
  pose proof (Create_Func_cases clients st1) as Hsecond.
  rewrite Hrd, derived_setId, Hd in Hsecond.
  rewrite Hsecond.
  unfold createFrom, mbind, M_bind, CustomCertificatesGet, remoteCall.
  rewrite Hget. simpl. rewrite Hnf. simpl.
  unfold throw, afterCalls, ResourceRequiresImport. by rewrite Hrd.
Qed.

(** X13: [Create] then [Read] gives the configuration back: when the
    configured name is one segment, [Create] succeeded and the [Read] that
    follows succeeded without marking the binding as gone, the [name] that
    [Read] writes is the configured one and the [web_pubsub_id] it writes is
    the configured parent formatted anew: it parses to the same parent as
    the configured string. *)
Theorem Create_then_Read_restores_name_and_parent
    (st st1 st2 : State W) (m : CustomCertWebPubsubModel) :
  Decode (resourceData st) = Ok m →
  validSegment (Name m) = true →
  Func (Create clients) st = (Return (), st1) →
  Func (Read clients) st1 = (Return (), st2) →
  Id (resourceData st2) ≠ "" →
  ∃ webPubsubId,
    ParseWebPubSubID (WebPubsubId m) = Ok webPubsubId
    ∧ attrs (resourceData st2) !! "name" = Some (TfString (Name m))
    ∧ attrs (resourceData st2) !! "web_pubsub_id"
      = Some (TfString (WebPubSubId_ID webPubsubId))
    ∧ ParseWebPubSubID (WebPubSubId_ID webPubsubId) = Ok webPubsubId
    ∧ Id (resourceData st2) = Id (resourceData st1).
Proof.
  intros Hdec Hname Hcreate Hread Hkept. simpl in *.
  destruct (Create_Func_success_inv clients st st1 Hcreate)
    as (id & kv & Hd & Hrd).
  apply derived_inv in Hd as (m' & webPubsubId & Hdec' & Hparent & _ & ->).
  rewrite Hdec in Hdec'. injection Hdec' as <-.
  destruct (derived_identifier_parses _ _ _ Hparent Hname)
    as (Hid & Hfmt & Hcanonical).
  exists webPubsubId. split; [exact Hparent|].
  set (id := NewCustomCertificateID _ _ _ _) in *.
  assert (Hkey : ParseCustomCertificateID (Id (resourceData st1)) = Ok id)
    by (by rewrite Hrd).
  destruct (WebPubSub_CustomCertificatesGet clients id (remote st1))
    as [[resp err] w] eqn:Hget.
  destruct err as [e|].
  - rewrite (Read_Func_Get clients st1 id resp (Some e) w Hkey Hget) in Hread.
    simpl in Hread.
    destruct (response.WasNotFound (HttpResponse resp)); [|discriminate].
    injection Hread as <-. done.
  - destruct (Model resp) as [model|] eqn:Hmodel.
    + destruct (Read_Func_found_success st1 st2 id resp model w
                  Hkey Hget Hmodel Hread) as (certId & version & ->).
      rewrite Hfmt, Hrd.
      cbn [encode attrs Id setId Name WebPubsubId CustomCertificateName id
           NewCustomCertificateID].
      rewrite lookup_insert_ne, lookup_insert_ne, lookup_insert_ne,
        lookup_insert_eq by done.
      by rewrite lookup_insert_ne, lookup_insert_ne, lookup_insert_eq by done.
    + rewrite (Read_Func_Get clients st1 id resp None w Hkey Hget) in Hread.
      simpl in Hread. rewrite Hmodel in Hread. discriminate.
Qed.

End StateTheorems.

Lemma Read_success_key_and_parent_witness :
  ∃ parent name,
    attrs (resourceData (Func (Read stub.clients) faulty.keyWithTrailingSlash).2)
      !! "web_pubsub_id" = Some (TfString parent)
    ∧ attrs (resourceData (Func (Read stub.clients) faulty.keyWithTrailingSlash).2)
        !! "name" = Some (TfString name)
    ∧ webpubsub.ParseCustomCertificateID
        (parent ++ "/customCertificates/" ++ name)
      = Ok stub.certId.
Proof.
  destruct (Read_success_key_and_parent stub.clients
              faulty.keyWithTrailingSlash
              (Func (Read stub.clients) faulty.keyWithTrailingSlash).2
              stub.certId (stub.found (stub.storedObject (Some "abc123")))
              (stub.storedObject (Some "abc123"))
              (remote faulty.keyWithTrailingSlash))
    as (parent & name & Hparent & Hname & _ & Hkey & _);
    try (vm_compute; reflexivity).
  exists parent, name. repeat split; assumption.
Defined.

Lemma Create_twice_requires_import_witness :
  Func (Create stub.clients) (stub.created stub.certificateRef) =
    (Fail (tf.ImportAsExistsError ResourceType
             (Id (resourceData (stub.created stub.certificateRef)))),
     afterCalls (stub.created stub.certificateRef)
       (remote (stub.created stub.certificateRef))
       [CallCustomCertificatesGet stub.certId]).
Proof.
  apply (Create_twice_requires_import stub.clients
           (stub.initial stub.certificateRef) (stub.created stub.certificateRef)
           stub.certId (stub.parsedRef "abc123")
           (stub.found (stub.storedObject (Some "abc123")))
           (remote (stub.created stub.certificateRef)));
    vm_compute; reflexivity.
Defined.

Lemma Create_then_Read_restores_name_and_parent_witness :
  attrs (resourceData (stub.createThenRead faulty.parentWithTrailingSlash).2)
    !! "name" = Some (TfString "cert1")
  ∧ attrs (resourceData (stub.createThenRead faulty.parentWithTrailingSlash).2)
      !! "web_pubsub_id" = Some (TfString stub.parentId).
Proof.
  destruct (Create_then_Read_restores_name_and_parent stub.clients
              faulty.parentWithTrailingSlash
              (Func (Create stub.clients) faulty.parentWithTrailingSlash).2
              (stub.createThenRead faulty.parentWithTrailingSlash).2
              {| Name := "cert1";
                 WebPubsubId := stub.parentId ++ "/";
                 CustomCertId := stub.certificateRef;
                 CertificateVersion := "" |})
    as (webPubsubId & Hparse & Hname & Hparent & _);
    try (vm_compute; reflexivity).
  - vm_compute. discriminate.
  - vm_compute in Hparse. injection Hparse as <-.
    split; assumption.
Defined.

(** A parent identifier configured with a "/" after it is accepted, and
    [Read] writes it back without that "/": not the configured string. *)
Example parent_with_trailing_slash_is_rewritten :
  (stub.createThenRead faulty.parentWithTrailingSlash).1 = (Return (), Return ())
  ∧ attrs (resourceData faulty.parentWithTrailingSlash) !! "web_pubsub_id"
    = Some (TfString (stub.parentId ++ "/"))
  ∧ attrs (resourceData (stub.createThenRead faulty.parentWithTrailingSlash).2)
      !! "web_pubsub_id" = Some (TfString stub.parentId).
Proof. repeat split; vm_compute; reflexivity. Qed.

(** ** The schema *)

(** X14: the schema and the model agree: the [tfschema] tags of the model
    are exactly the keys of [Arguments] and [Attributes], which do not
    overlap, and every entry is a string.  Every argument is required and
    forces a new resource, so nothing can be updated in place; the
    attribute is computed only. *)
Theorem schema_matches_model :
  dom Arguments ∪ dom Attributes = list_to_set modelTags
  ∧ dom Arguments ## dom Attributes
  ∧ map_Forall (λ _ s, pluginsdk.Type_ s = pluginsdk.TypeString)
      (Arguments ∪ Attributes)
  ∧ map_Forall
      (λ _ s, pluginsdk.Required s = true ∧ pluginsdk.ForceNew s = true
              ∧ pluginsdk.Computed s = false)
      Arguments
  ∧ map_Forall
      (λ _ s, pluginsdk.Computed s = true ∧ pluginsdk.Required s = false
              ∧ pluginsdk.ForceNew s = false ∧ pluginsdk.ValidateFunc s = None)
      Attributes.
Proof.
  unfold Arguments, Attributes, modelTags.
  split; [|split; [|split; [|split]]].
  - rewrite !dom_insert_L, dom_empty_L. simpl. set_solver.
  - rewrite !dom_insert_L, dom_empty_L.
    intros k Hargs Hattrs.
    apply elem_of_union in Hattrs as [->%elem_of_singleton|Hattrs];
      [|by apply not_elem_of_empty in Hattrs].
    repeat (apply elem_of_union in Hargs as [Hargs%elem_of_singleton|Hargs];
            [discriminate|]).
    by apply not_elem_of_empty in Hargs.
  - intros k s Hk.
    apply lookup_union_Some_raw in Hk as [Hk|[_ Hk]];
      repeat (apply lookup_insert_Some in Hk as [[_ <-]|[_ Hk]]; [done|]);
      by rewrite lookup_empty in Hk.
  - intros k s Hk.
    repeat (apply lookup_insert_Some in Hk as [[_ <-]|[_ Hk]]; [done|]).
    by rewrite lookup_empty in Hk.
  - intros k s Hk.
    repeat (apply lookup_insert_Some in Hk as [[_ <-]|[_ Hk]]; [done|]).
    by rewrite lookup_empty in Hk.
Qed.

(** ** The identifier later calls address *)

Section SameIdentifier.

Context {W : Type} (clients : Clients W).

Import resourceids webpubsub sdk.

(** X15: after a [Create] that succeeded for a name of one segment, [Read]
    and [Delete] address the identifier [Create] derived: the first remote
    call of [Read] is the Get of that identifier, and the one remote call of
    [Delete] is its delete. *)
Theorem Read_and_Delete_address_created_identifier
    (st st1 : State W) (id : CustomCertificateId)
    (keyVaultCertificateId : keyVaultParse.NestedItemId) :
  derived (resourceData st) = Some (id, keyVaultCertificateId) →
  validSegment (CustomCertificateName id) = true →
  Func (Create clients) st = (Return (), st1) →
  (∃ cs, calls (Func (Read clients) st1).2
         = (calls st1 ++ CallCustomCertificatesGet id :: cs)%list)
  ∧ calls (Func (Delete clients) st1).2
    = (calls st1 ++ [CallCustomCertificatesDelete id])%list.
Proof.
  intros Hd Hname Hcreate. simpl in *.
  destruct (Create_Func_success_inv clients st st1 Hcreate)
    as (id' & kv' & Hd' & Hrd).
  rewrite Hd in Hd'. injection Hd' as <- <-.
  apply derived_inv in Hd as (m & webPubsubId & _ & Hparent & _ & ->).
  destruct (derived_identifier_parses _ _ _ Hparent Hname) as (Hid & _ & _).
  set (id := NewCustomCertificateID _ _ _ _) in *.
  assert (Hkey : ParseCustomCertificateID (Id (resourceData st1)) = Ok id)
    by (by rewrite Hrd).
  split.
  - destruct (WebPubSub_CustomCertificatesGet clients id (remote st1))
      as [[resp err] w] eqn:Hget.
    rewrite (Read_Func_Get clients st1 id resp err w Hkey Hget).
    destruct err as [e|]; simpl.
    { exists []. by destruct (response.WasNotFound (HttpResponse resp)). }
    destruct (Model resp) as [model|]; [|by exists []].
    unfold readModel, mbind, M_bind, KeyVaultIDFromBaseUrl, remoteCall. simpl.
    destruct (KeyVault_KeyVaultIDFromBaseUrl _ _ _) as [[raw err] w2].
    exists [CallKeyVaultIDFromBaseUrl (KeyVaultBaseUri (Properties model))].
    simpl. destruct err; simpl; [by rewrite <- app_assoc|].
    destruct raw as [keyVaultId|]; simpl; [|by rewrite <- app_assoc].
    destruct (commonids.ParseKeyVaultID keyVaultId); simpl;
      [|by rewrite <- app_assoc].
    destruct (keyVaultParse.NewNestedItemID _ _ _ _); simpl;
      by rewrite <- app_assoc.
  - unfold Delete_Func, mbind, M_bind, getResourceData.
    rewrite Hkey.
    unfold CustomCertificatesDelete, remoteCall.
    destruct (WebPubSub_CustomCertificatesDelete clients id (remote st1))
      as [[resp err] w].
    by destruct err.
Qed.

End SameIdentifier.

Lemma Read_and_Delete_address_created_identifier_witness :
  calls (Func (Delete stub.clients) (stub.created stub.certificateRef)).2
  = (calls (stub.created stub.certificateRef)
     ++ [CallCustomCertificatesDelete stub.certId])%list.
Proof.
  apply (Read_and_Delete_address_created_identifier stub.clients
           (stub.initial stub.certificateRef) (stub.created stub.certificateRef)
           stub.certId (stub.parsedRef "abc123"));
    vm_compute; reflexivity.
Defined.
